(** * Metrics computation and cross-run aggregation of the analytics
      performance tester

    A shallow embedding of
      - [analysis/dashboard_generator.py]  (module [DashboardGenerator]),
      - [analysis/dashboard-generator.py]  (module [DashboardGeneratorHyphen]),
      - [analysis/analyze_multi_run_results.py] (module [MultiRun]),
    together with the part of Python and pandas they rely on.

    Numbers: Python floats are modelled by real numbers extended with NaN
    ([pyfloat]); rounding of binary64 arithmetic is abstracted away, NaN
    propagation, pandas' [skipna] reductions and Python's exceptions are
    kept. *)

From Stdlib Require Import Reals Lra Lia List Bool Arith String Ascii
  Permutation Sorted.
Import ListNotations.

Local Open Scope R_scope.

(* ===================================================================== *)
(** ** Python: exceptions, floats, strings *)
(* ===================================================================== *)

Module Py.

(** The exceptions that the modelled code can meet. *)
Inductive exn : Type :=
| ZeroDivisionError   (* float division by zero *)
| ValueError          (* NaTType does not support timestamp *)
| KeyError
| FileNotFoundError
| YAMLError           (* yaml.safe_load on a malformed document *)
| PermissionError.

(** A computation either returns or raises. *)
Inductive result (A : Type) : Type :=
| Ok (a : A)
| Raise (e : exn).
Arguments Ok {A} a.
Arguments Raise {A} e.

Definition bind {A B : Type} (c : result A) (k : A -> result B)
  : result B :=
  match c with
  | Ok a => k a
  | Raise e => Raise e
  end.

(** A float: a real number or NaN. *)
Inductive pyfloat : Type :=
| NaN
| Fin (x : R).

Definition fsub (a b : pyfloat) : pyfloat :=
  match a, b with
  | Fin x, Fin y => Fin (x - y)
  | _, _ => NaN
  end.

(** [a / c] for a non-zero float literal [c]. *)
Definition fdiv_const (a : pyfloat) (c : R) : pyfloat :=
  match a with
  | Fin x => Fin (x / c)
  | NaN => NaN
  end.

(** [b > a] on floats: false as soon as one side is NaN. *)
Definition fgtb (b a : pyfloat) : bool :=
  match b, a with
  | Fin y, Fin x => if Rlt_dec x y then true else false
  | _, _ => false
  end.

(** The builtin [max(a, b)]: keeps [a] unless [b > a]. *)
Definition max (a b : pyfloat) : pyfloat :=
  if fgtb b a then b else a.

(** [n / d] for an [int] n and a Python [float] d: true division raises
    on a zero divisor and propagates NaN. *)
Definition truediv (n : nat) (d : pyfloat) : result pyfloat :=
  match d with
  | NaN => Ok NaN
  | Fin y => if Req_dec_T y 0 then Raise ZeroDivisionError
             else Ok (Fin (INR n / y))
  end.


(** [a < b] on floats: false as soon as one side is NaN. *)
Definition fltb (a b : pyfloat) : bool := fgtb b a.

(** The builtin [min(l)] of a non-empty list of floats: the running
    minimum is replaced by an item only when the item is smaller. *)
Definition min (l : list pyfloat) : pyfloat :=
  match l with
  | [] => NaN
  | x :: t => fold_left (fun m y => if fltb y m then y else m) t x
  end.

(** *** Strings *)

Local Open Scope string_scope.

(** [s.replace(old, new)] for a non-empty [old]: left to right, without
    overlap.  [skip] counts the characters of a match still to pass. *)
Fixpoint replace_from (skip : nat) (old new s : string) : string :=
  match s with
  | EmptyString => EmptyString
  | String c t =>
      match skip with
      | S k => replace_from k old new t
      | O =>
          if String.prefix old s
          then new ++ replace_from (String.length old - 1) old new t
          else String c (replace_from 0 old new t)
      end
  end.

Definition replace (old new s : string) : string :=
  replace_from 0 old new s.

Definition is_lower (c : ascii) : bool :=
  let n := nat_of_ascii c in (97 <=? n)%nat && (n <=? 122)%nat.
Definition is_upper (c : ascii) : bool :=
  let n := nat_of_ascii c in (65 <=? n)%nat && (n <=? 90)%nat.
Definition to_upper (c : ascii) : ascii :=
  if is_lower c then ascii_of_nat (nat_of_ascii c - 32) else c.
Definition to_lower (c : ascii) : ascii :=
  if is_upper c then ascii_of_nat (nat_of_ascii c + 32) else c.

(** [s.title()] on ASCII text: a letter that follows a letter is
    lowered, any other letter is raised. *)
Fixpoint title_from (prev_cased : bool) (s : string) : string :=
  match s with
  | EmptyString => EmptyString
  | String c t =>
      if is_lower c || is_upper c
      then String (if prev_cased then to_lower c else to_upper c)
                  (title_from true t)
      else String c (title_from false t)
  end.

Definition title (s : string) : string := title_from false s.

(** Position of the last dot of a file name, if any. *)
Fixpoint last_dot (s : string) (i : nat) (seen : option nat)
  : option nat :=
  match s with
  | EmptyString => seen
  | String c t =>
      last_dot t (S i) (if Ascii.eqb c "."%char then Some i else seen)
  end.

(** [Path(name).stem]: the name without its last suffix; a leading dot
    starts no suffix. *)
Definition stem (name : string) : string :=
  match last_dot name 0 None with
  | Some (S i) => String.substring 0 (S i) name
  | _ => name
  end.

(** [s.upper()] on ASCII text. *)
Fixpoint upper (s : string) : string :=
  match s with
  | EmptyString => EmptyString
  | String c t => String (to_upper c) (upper t)
  end.

End Py.

Notation "x <- c ;; k" := (Py.bind c (fun x => k))
  (at level 61, c at next level, right associativity).
Notation "' ( x , y ) <- c ;; k" := (Py.bind c (fun '(x, y) => k))
  (at level 61, x name, y name, c at next level, right associativity).

(* ===================================================================== *)
(** ** pandas: reductions of a Series *)
(* ===================================================================== *)

Module Pandas.
Import Py.

(** A numeric column; NaN marks a missing cell (NaT in a datetime
    column). *)
Definition Series : Type := list pyfloat.

Fixpoint dropna (s : Series) : list R :=
  match s with
  | [] => []
  | NaN :: t => dropna t
  | Fin x :: t => x :: dropna t
  end.

Definition sum (xs : list R) : R := fold_right Rplus 0 xs.

(** [Series.mean()], skipna: NaN when no value is left. *)
Definition mean (s : Series) : pyfloat :=
  match dropna s with
  | [] => NaN
  | xs => Fin (sum xs / INR (List.length xs))
  end.

(** [Series.min()] and [Series.max()], skipna. *)
Definition min (s : Series) : pyfloat :=
  match dropna s with
  | [] => NaN
  | x :: xs => Fin (fold_left Rmin xs x)
  end.

Definition max (s : Series) : pyfloat :=
  match dropna s with
  | [] => NaN
  | x :: xs => Fin (fold_left Rmax xs x)
  end.

(** [Series.std()] (ddof = 1), as nanvar computes it: the squared
    deviations from the mean, divided by [count - ddof]; NaN when
    [count - ddof <= 0]. *)
Definition std (s : Series) : pyfloat :=
  let xs := dropna s in
  let count := List.length xs in
  if (count <=? 1)%nat then NaN
  else
    let avg := sum xs / INR count in
    let sqr := sum (map (fun x => (avg - x) * (avg - x)) xs) in
    Fin (sqrt (sqr / (INR count - 1))).

Fixpoint insert (x : R) (l : list R) : list R :=
  match l with
  | [] => [x]
  | y :: t => if Rle_dec x y then x :: l else y :: insert x t
  end.

Definition sort_values (l : list R) : list R := fold_right insert [] l.

(** [Series.quantile(num/den)] with linear interpolation: the virtual
    index is [(n-1) * q]; its integer part selects the lower order
    statistic, its fractional part weighs the step to the next one. *)
Definition quantile (num den : nat) (s : Series) : pyfloat :=
  let xs := sort_values (dropna s) in
  match xs with
  | [] => NaN
  | _ =>
      let n := List.length xs in
      let pos := ((n - 1) * num)%nat in
      let lo := (pos / den)%nat in
      let hi := Nat.min (lo + 1) (n - 1) in
      let g := INR (pos mod den) / INR den in
      Fin (nth lo xs 0 + (nth hi xs 0 - nth lo xs 0) * g)
  end.

(** [Timestamp.timestamp()]: POSIX seconds of an instant kept in
    milliseconds; NaT raises. *)
Definition Timestamp_timestamp (t : pyfloat) : result R :=
  match t with
  | NaN => Raise ValueError
  | Fin ms => Ok (ms / 1000)
  end.

(** The rows at positions [skip], [skip + step], [skip + 2 * step],
    ... of [l], for a positive [step]. *)
Fixpoint every_from {A : Type} (skip step : nat) (l : list A) : list A :=
  match l with
  | [] => []
  | x :: t =>
      match skip with
      | O => x :: every_from (step - 1) step t
      | S k => every_from k step t
      end
  end.

(** [frame.iloc[::step]]: every [step]-th row from the first one on; a
    zero step is refused. *)
Definition iloc_step {A : Type} (step : nat) (l : list A) : result (list A) :=
  match step with
  | O => Raise ValueError
  | S _ => Ok (every_from 0 step l)
  end.

End Pandas.

(* ===================================================================== *)
(** ** Data model *)
(* ===================================================================== *)

(** One line of a result file.  [duration_ms] is read on successful
    records only; [timestamp] (an instant, in milliseconds) and
    [start_time] (a nanosecond counter) may be missing. *)
Record RequestRecord : Type := {
  success : bool;
  duration_ms : R;
  timestamp : option R;
  start_time : option R
}.

(** How [pd.read_json] typed the [timestamp] column: instants
    ([Timestamp]/[NaT] cells) or plain numbers (float/NaN cells). *)
Inductive ts_dtype : Type :=
| datetime64
| float64.

(** A frame of request records: its rows and the type of its
    [timestamp] column.  A column exists when a row carries the field. *)
Record DataFrame : Type := {
  rows : list RequestRecord;
  timestamp_dtype : ts_dtype
}.

(** [pd.DataFrame()] *)
Definition empty_frame : DataFrame :=
  {| rows := []; timestamp_dtype := float64 |}.

(** [df.empty] *)
Definition empty (df : DataFrame) : bool :=
  match rows df with
  | [] => true
  | _ :: _ => false
  end.

Definition is_some {A : Type} (o : option A) : bool :=
  match o with
  | Some _ => true
  | None => false
  end.

(** ['timestamp' in df.columns] *)
Definition has_timestamp_column (df : DataFrame) : bool :=
  existsb (fun r => is_some (timestamp r)) (rows df).

Definition cell (o : option R) : Py.pyfloat :=
  match o with
  | Some x => Py.Fin x
  | None => Py.NaN
  end.

(** The computed summary of one run of one variant (the dict returned by
    [calculate_detailed_metrics]); [language] is [None] when the dict has
    no such key or holds Python's [None]. *)
Record RunMetrics : Type := {
  total_requests : nat;
  success_rate : Py.pyfloat;
  avg_latency : Py.pyfloat;
  min_latency : Py.pyfloat;
  max_latency : Py.pyfloat;
  std_latency : Py.pyfloat;
  p95_latency : Py.pyfloat;
  p99_latency : Py.pyfloat;
  throughput : Py.pyfloat;
  test_duration_s : Py.pyfloat;
  language : option string
}.

(** The part of [config.yaml] that is read: [test.duration_ms]. *)
Module Yaml.
Record TestSection : Type := { duration_ms : option R }.
Record Config : Type := { test : option TestSection }.

(** What opening and parsing [config.yaml] gives: the document (None
    for an empty file) or the exception of [open] / [yaml.safe_load]. *)
Definition source : Type := Py.result (option Config).

(** [config.get('test', {}).get('duration_ms', 30000) if config
    else 30000] *)
Definition test_duration_ms (config : option Config) : R :=
  match config with
  | Some c =>
      match test c with
      | Some t =>
          match duration_ms t with
          | Some d => d
          | None => 30000
          end
      | None => 30000
      end
  | None => 30000
  end.
End Yaml.

(** An insertion-ordered [dict] with string keys. *)
Section Dict.
Context {V : Type}.

Definition dict : Type := list (string * V).

Fixpoint dict_get (k : string) (d : dict) : option V :=
  match d with
  | [] => None
  | (k', v) :: t => if String.eqb k k' then Some v else dict_get k t
  end.

(** [d[k] = v]: overwrites in place or appends. *)
Fixpoint dict_set (k : string) (v : V) (d : dict) : dict :=
  match d with
  | [] => [(k, v)]
  | (k', v') :: t =>
      if String.eqb k k' then (k, v) :: t else (k', v') :: dict_set k v t
  end.
End Dict.
Arguments dict V : clear implicits.

(** A run directory [run_N] as the analysis sees it: whether [raw/]
    exists, the size of [raw/<name>] for the files that exist, and what
    [pd.read_json(raw/<name>, lines=True)] parses from them. *)
Record RunDir : Type := {
  run_number : nat;
  raw_exists : bool;
  getsize : string -> option nat;
  read_json : string -> DataFrame
}.

(** The entry that [auto_detect_result_files] stores per variant. *)
Module FileInfo.
Record t : Type := {
  path : string;
  sdk_type : string;
  language : string;
  display_name : string
}.
End FileInfo.

(** ['start_time' in df.columns] *)
Definition has_start_time_column (df : DataFrame) : bool :=
  existsb (fun r => is_some (start_time r)) (rows df).

(** What is drawn: the traces of a figure with the data they carry, in
    the order of [fig.add_trace]; colours and layout are left out. *)
Module Plot.

(** A text cell: a literal, or a float printed with one decimal and a
    suffix (format [.1f]). *)
Inductive cell : Type :=
| Text (s : string)
| Fixed1 (x : Py.pyfloat) (suffix : string).

Inductive trace : Type :=
| Table (header : list string) (columns : list (list cell))
| Bar (name : option string) (x : list string) (y : list Py.pyfloat)
      (text : list cell)
| Scatter (name : string) (x : list Py.pyfloat) (y : list Py.pyfloat).

(** A trace with the row and the column of its subplot. *)
Definition placed : Type := (trace * (nat * nat))%type.

Definition heads {A : Type} (rows : list (list A)) : list A :=
  flat_map (fun r => match r with
                     | [] => []
                     | x :: _ => [x]
                     end) rows.

Definition nonempty {A : Type} (r : list A) : bool :=
  match r with
  | [] => false
  | _ :: _ => true
  end.

(** The first [n] columns of a list of rows, stopping at the end of the
    shortest row. *)
Fixpoint columns_upto {A : Type} (n : nat) (rows : list (list A))
  : list (list A) :=
  match n with
  | O => []
  | S n' =>
      if forallb nonempty rows
      then heads rows :: columns_upto n' (map (@tl A) rows)
      else []
  end.

(** The list of [zip] applied to the unpacked rows: their columns. *)
Definition zip_star {A : Type} (rows : list (list A)) : list (list A) :=
  match rows with
  | [] => []
  | r :: _ => columns_upto (List.length r) rows
  end.

End Plot.

(** What is printed: the lines of a console summary with the numbers
    they show, before formatting. *)
Module Console.

Inductive line : Type :=
| Rule (width : nat)
| Title (language_upper : string)
| NoMetrics
| Unable
| DetailedHeader
| ColumnHeader
| Row (sdk : string)
      (success_rate throughput avg_latency p95_latency : Py.pyfloat)
| PairRow (label : string) (operational enterprise : Py.pyfloat)
| ComparisonHeader
| LowerLatency (winner : string) (diff : Py.pyfloat)
| SimilarLatency
| HigherThroughput (winner : string) (diff : Py.pyfloat)
| SimilarThroughput
| BetterP95 (winner : string) (diff : Py.pyfloat)
| MoreConsistent (winner : string)
| Footer.

End Console.

(* ===================================================================== *)
(** ** analysis/dashboard_generator.py *)
(* ===================================================================== *)

Module DashboardGenerator.
Import Py.

(** [load_config()]: only a missing file is caught. *)
Definition load_config (config_yaml : Yaml.source)
  : result (option Yaml.Config) :=
  match config_yaml with
  | Ok c => Ok c
  | Raise FileNotFoundError => Ok None
  | Raise e => Raise e
  end.

(** [file_path.exists() and os.path.getsize(file_path) > 0] for
    [file_path = raw_dir / name] *)
Definition exists_nonempty (run_dir : RunDir) (name : string) : bool :=
  match getsize run_dir name with
  | Some n => (0 <? n)%nat
  | None => false
  end.

(** [load_data(raw_dir / name)] *)
Definition load_data (run_dir : RunDir) (name : string) : DataFrame :=
  match getsize run_dir name with
  | None => empty_frame
  | Some n => if (n =? 0)%nat then empty_frame else read_json run_dir name
  end.

Local Open Scope string_scope.

Definition patterns : list (string * list string) :=
  [ ("java", ["operational-java.jsonl"; "enterprise-java.jsonl"]);
    ("go", ["operational-go.jsonl"; "enterprise-go.jsonl"]) ].

Definition legacy_patterns : list string :=
  ["operational.jsonl"; "enterprise.jsonl"].

(** The inner loop over [found_files] of one language. *)
Definition record_found (lang : string) (files : dict FileInfo.t)
    (file_path : string) : dict FileInfo.t :=
  let sdk_type := replace ("-" ++ lang) "" (stem file_path) in
  dict_set sdk_type
    {| FileInfo.path := file_path;
       FileInfo.sdk_type := sdk_type;
       FileInfo.language := lang;
       FileInfo.display_name := title sdk_type ++ " SDK" |}
    files.

(** The loop over [patterns.items()], left at the first language with
    a file found. *)
Fixpoint detect_language (run_dir : RunDir)
    (ps : list (string * list string))
    (files : dict FileInfo.t) (language : option string)
  : dict FileInfo.t * option string :=
  match ps with
  | [] => (files, language)
  | (lang, file_patterns) :: rest =>
      let found_files := filter (exists_nonempty run_dir) file_patterns in
      match found_files with
      | [] => detect_language run_dir rest files language
      | _ :: _ => (fold_left (record_found lang) found_files files, Some lang)
      end
  end.

(** The loop over [legacy_patterns]. *)
Definition record_legacy (run_dir : RunDir) (files : dict FileInfo.t)
    (pattern : string) : dict FileInfo.t :=
  if exists_nonempty run_dir pattern
  then
    let sdk_type := replace ".jsonl" "" pattern in
    dict_set sdk_type
      {| FileInfo.path := pattern;
         FileInfo.sdk_type := sdk_type;
         FileInfo.language := "unknown";
         FileInfo.display_name := title sdk_type ++ " SDK" |}
      files
  else files.

(** [auto_detect_result_files(run_dir)]; paths are kept relative to
    [raw_dir]. *)
Definition auto_detect_result_files (run_dir : RunDir)
  : dict FileInfo.t * option string :=
  if negb (raw_exists run_dir) then ([], None)
  else
    let '(files, language) := detect_language run_dir patterns [] None in
    match files with
    | [] =>
        (fold_left (record_legacy run_dir) legacy_patterns files,
         Some "unknown")
    | _ :: _ => (files, language)
    end.

Local Close Scope string_scope.

(** [calculate_detailed_metrics(df, language)]; [config_yaml] is the
    state of the configuration file that [load_config()] reads, and
    [language] the label passed by the caller ([Some "unknown"] is the
    default). *)
Definition calculate_detailed_metrics (config_yaml : Yaml.source)
    (df : DataFrame) (language : option string)
  : result (option RunMetrics) :=
  if empty df then Ok None else
  config <- load_config config_yaml ;;
  let test_duration_ms := Yaml.test_duration_ms config in
  let test_duration_s := test_duration_ms / 1000 in
  let total_requests := List.length (rows df) in
  let successful_df := filter success (rows df) in
  let success_count := List.length successful_df in
  let success_rate :=
    if (0 <? total_requests)%nat
    then INR success_count / INR total_requests * 100
    else 0 in
  match successful_df with
  | [] =>
      Ok (Some {| total_requests := total_requests;
                  success_rate := Fin 0;
                  avg_latency := Fin 0;
                  min_latency := Fin 0;
                  max_latency := Fin 0;
                  std_latency := Fin 0;
                  p95_latency := Fin 0;
                  p99_latency := Fin 0;
                  throughput := Fin 0;
                  test_duration_s := Fin test_duration_s;
                  language := language |})
  | _ :: _ =>
      '(throughput, final_test_duration_s) <-
        (if has_timestamp_column df && (1 <? success_count)%nat
         then
           let timestamps :=
             map (fun r => cell (timestamp r)) successful_df in
           '(start_ms, end_ms) <-
             match timestamp_dtype df with
             | datetime64 =>
                 s <- Pandas.Timestamp_timestamp (Pandas.min timestamps) ;;
                 e <- Pandas.Timestamp_timestamp (Pandas.max timestamps) ;;
                 Ok (Fin (s * 1000), Fin (e * 1000))
             | float64 =>
                 Ok (Pandas.min timestamps, Pandas.max timestamps)
             end ;;
           let actual_duration_s :=
             fdiv_const (fsub end_ms start_ms) 1000 in
           let actual_duration_s := Py.max actual_duration_s (Fin 1) in
           throughput <- truediv success_count actual_duration_s ;;
           Ok (throughput, actual_duration_s)
         else
           throughput <- truediv success_count (Fin test_duration_s) ;;
           Ok (throughput, Fin test_duration_s)) ;;
      let latencies := map (fun r => Fin (duration_ms r)) successful_df in
      Ok (Some {| total_requests := total_requests;
                  success_rate := Fin success_rate;
                  avg_latency := Pandas.mean latencies;
                  min_latency := Pandas.min latencies;
                  max_latency := Pandas.max latencies;
                  std_latency := Pandas.std latencies;
                  p95_latency := Pandas.quantile 95 100 latencies;
                  p99_latency := Pandas.quantile 99 100 latencies;
                  throughput := throughput;
                  test_duration_s := final_test_duration_s;
                  language := language |})
  end.

(** *** The dashboard and the console summary *)

Local Open Scope string_scope.

(** One row of [metrics_data]. *)
Definition summary_cells (name : string) (metrics : option RunMetrics)
  : list Plot.cell :=
  match metrics with
  | None =>
      [ Plot.Text ("<b>" ++ name ++ "</b>"); Plot.Text "No data";
        Plot.Text "No data"; Plot.Text "No data"; Plot.Text "No data";
        Plot.Text "No data"; Plot.Text "No data"; Plot.Text "No data";
        Plot.Text "No data" ]
  | Some m =>
      [ Plot.Text ("<b>" ++ name ++ "</b>");
        Plot.Fixed1 (success_rate m) "%";
        Plot.Fixed1 (throughput m) "";
        Plot.Fixed1 (avg_latency m) "";
        Plot.Fixed1 (min_latency m) "";
        Plot.Fixed1 (max_latency m) "";
        Plot.Fixed1 (std_latency m) "";
        Plot.Fixed1 (p95_latency m) "";
        Plot.Fixed1 (p99_latency m) "" ]
  end.

Definition summary_header : list string :=
  [ "<b>SDK</b>"; "<b>Success<br>Rate</b>"; "<b>Throughput<br>(req/s)</b>";
    "<b>Average<br>(ms)</b>"; "<b>Min<br>(ms)</b>"; "<b>Max<br>(ms)</b>";
    "<b>Std Dev<br>(ms)</b>"; "<b>P95<br>(ms)</b>"; "<b>P99<br>(ms)</b>" ].

(** [create_summary_table(operational_metrics, enterprise_metrics,
    language)] *)
Definition create_summary_table
    (operational_metrics enterprise_metrics : option RunMetrics)
    (language : string) : Plot.trace :=
  let metrics_data :=
    [ summary_cells "Operational SDK" operational_metrics;
      summary_cells "Enterprise SDK" enterprise_metrics ] in
  Plot.Table summary_header (Plot.zip_star metrics_data).

(** The bar of the key latency metrics of one variant. *)
Definition latency_bar (name : string) (metrics : option RunMetrics)
  : list Plot.placed :=
  match metrics with
  | Some m =>
      let latencies := [avg_latency m; p95_latency m; p99_latency m] in
      [ (Plot.Bar (Some name) ["Average"; "P95"; "P99"] latencies
           (map (fun val => Plot.Fixed1 val "ms") latencies),
         (2, 1)%nat) ]
  | None => []
  end.

(** The throughput comparison. *)
Definition throughput_bar
    (operational_metrics enterprise_metrics : option RunMetrics)
  : list Plot.placed :=
  match operational_metrics, enterprise_metrics with
  | Some o, Some e =>
      [ (Plot.Bar None ["Operational SDK"; "Enterprise SDK"]
           [throughput o; throughput e]
           [Plot.Fixed1 (throughput o) ""; Plot.Fixed1 (throughput e) ""],
         (2, 2)%nat) ]
  | Some o, None =>
      [ (Plot.Bar None ["Operational SDK"] [throughput o]
           [Plot.Fixed1 (throughput o) ""], (2, 2)%nat) ]
  | None, Some e =>
      [ (Plot.Bar None ["Enterprise SDK"] [throughput e]
           [Plot.Fixed1 (throughput e) ""], (2, 2)%nat) ]
  | None, None => []
  end.

(** What a frame adds to [all_start_times]. *)
Definition start_times_of (df : DataFrame) : list pyfloat :=
  if empty df then []
  else
    let successful := filter success (rows df) in
    match successful with
    | [] => []
    | _ :: _ =>
        if has_start_time_column df
        then map (fun r => cell (start_time r)) successful
        else []
    end.

(** The line of one variant in the chart of the performance over
    time. *)
Definition time_series (name : string) (df : DataFrame)
    (earliest_start : pyfloat) : result (list Plot.placed) :=
  if empty df then Ok []
  else
    let successful := filter success (rows df) in
    if Plot.nonempty successful && (1 <? List.length successful)%nat
    then
      start_time_column <-
        (if has_start_time_column df
         then Ok (map (fun r => cell (start_time r)) successful)
         else Raise KeyError) ;;
      let relative_times :=
        map (fun t => fdiv_const (fsub t earliest_start) 1000000000)
          start_time_column in
      '(sampled, sampled_times) <-
        (if (500 <? List.length successful)%nat
         then
           let step := (List.length successful / 500)%nat in
           sampled <- Pandas.iloc_step step successful ;;
           sampled_times <- Pandas.iloc_step step relative_times ;;
           Ok (sampled, sampled_times)
         else Ok (successful, relative_times)) ;;
      Ok [ (Plot.Scatter name sampled_times
              (map (fun r => Fin (duration_ms r)) sampled),
            (3, 1)%nat) ]
    else Ok [].

(** The chart of the performance over time. *)
Definition performance_over_time (operational_df enterprise_df : DataFrame)
  : result (list Plot.placed) :=
  let all_start_times :=
    (start_times_of operational_df ++ start_times_of enterprise_df)%list in
  match all_start_times with
  | [] => Ok []
  | _ :: _ =>
      let earliest_start := Py.min all_start_times in
      operational <-
        time_series "Operational SDK" operational_df earliest_start ;;
      enterprise <-
        time_series "Enterprise SDK" enterprise_df earliest_start ;;
      Ok (operational ++ enterprise)%list
  end.

(** [create_sdk_comparison_dashboard(data_files, language,
    operational_metrics, enterprise_metrics, ...)]: the traces of the
    figure that is written. *)
Definition create_sdk_comparison_dashboard (run_dir : RunDir)
    (data_files : dict FileInfo.t) (language : string)
    (operational_metrics enterprise_metrics : option RunMetrics)
  : result (list Plot.placed) :=
  let table :=
    (create_summary_table operational_metrics enterprise_metrics language,
     (1, 1)%nat) in
  let operational_df :=
    match dict_get "operational" data_files with
    | Some info => load_data run_dir (FileInfo.path info)
    | None => empty_frame
    end in
  let enterprise_df :=
    match dict_get "enterprise" data_files with
    | Some info => load_data run_dir (FileInfo.path info)
    | None => empty_frame
    end in
  series <- performance_over_time operational_df enterprise_df ;;
  Ok (table
      :: latency_bar "Operational SDK" operational_metrics
      ++ latency_bar "Enterprise SDK" enterprise_metrics
      ++ throughput_bar operational_metrics enterprise_metrics
      ++ series)%list.

(** The verdicts of the comparison of two summaries. *)
Definition comparison (o e : RunMetrics) : list Console.line :=
  ([ Console.ComparisonHeader ]
   ++ [ if fltb (avg_latency e) (avg_latency o)
        then Console.LowerLatency "Enterprise"
               (fsub (avg_latency o) (avg_latency e))
        else if fltb (avg_latency o) (avg_latency e)
        then Console.LowerLatency "Operational"
               (fsub (avg_latency e) (avg_latency o))
        else Console.SimilarLatency ]
   ++ [ if fgtb (throughput e) (throughput o)
        then Console.HigherThroughput "Enterprise"
               (fsub (throughput e) (throughput o))
        else if fgtb (throughput o) (throughput e)
        then Console.HigherThroughput "Operational"
               (fsub (throughput o) (throughput e))
        else Console.SimilarThroughput ]
   ++ (if fltb (p95_latency e) (p95_latency o)
       then [ Console.BetterP95 "Enterprise"
                (fsub (p95_latency o) (p95_latency e)) ]
       else if fltb (p95_latency o) (p95_latency e)
       then [ Console.BetterP95 "Operational"
                (fsub (p95_latency e) (p95_latency o)) ]
       else []))%list.

Definition metrics_row (sdk : string) (metrics : option RunMetrics)
  : list Console.line :=
  match metrics with
  | Some m =>
      [ Console.Row sdk (success_rate m) (throughput m) (avg_latency m)
          (p95_latency m) ]
  | None => []
  end.

(** [print_sdk_comparison_summary(operational_metrics,
    enterprise_metrics, language)]: the lines printed. *)
Definition print_sdk_comparison_summary
    (operational_metrics enterprise_metrics : option RunMetrics)
    (language : string) : list Console.line :=
  let banner :=
    [ Console.Rule 80; Console.Title (upper language); Console.Rule 80 ] in
  match operational_metrics, enterprise_metrics with
  | None, None => (banner ++ [ Console.NoMetrics ])%list
  | _, _ =>
      (banner
       ++ [ Console.DetailedHeader; Console.ColumnHeader; Console.Rule 70 ]
       ++ metrics_row "Operational" operational_metrics
       ++ metrics_row "Enterprise" enterprise_metrics
       ++ match operational_metrics, enterprise_metrics with
          | Some o, Some e => comparison o e
          | _, _ => []
          end
       ++ [ Console.Footer; Console.Rule 80 ])%list
  end.

(** How a script ends. *)
Inductive ending (A : Type) : Type :=
| Exit (code : nat)             (* sys.exit(code) *)
| Uncaught (e : exn)            (* an exception of the routines *)
| NoneHasNoUpper                (* AttributeError of [None.upper()] *)
| Finished (a : A).
Arguments Exit {A} code.
Arguments Uncaught {A} e.
Arguments NoneHasNoUpper {A}.
Arguments Finished {A} a.

(** The metrics of one variant in [main]. *)
Definition variant_metrics (config_yaml : Yaml.source) (run_dir : RunDir)
    (data_files : dict FileInfo.t) (language : option string)
    (variant : string) : result (option RunMetrics) :=
  match dict_get variant data_files with
  | Some info =>
      let df := load_data run_dir (FileInfo.path info) in
      if negb (empty df)
      then calculate_detailed_metrics config_yaml df language
      else Ok None
  | None => Ok None
  end.

(** [main()], with [run_dir] the directory of [--run-dir] when given,
    else the directory [results/latest] when it exists: the figure
    written and the lines printed. *)
Definition main (config_yaml : Yaml.source) (run_dir : option RunDir)
  : ending (list Plot.placed * list Console.line) :=
  match run_dir with
  | None => Exit 1
  | Some dir =>
      let '(data_files, language) := auto_detect_result_files dir in
      match data_files with
      | [] => Exit 1
      | _ :: _ =>
          match language with
          | None => NoneHasNoUpper
          | Some lang =>
              match variant_metrics config_yaml dir data_files language
                      "operational" with
              | Raise e => Uncaught e
              | Ok operational_metrics =>
                  match variant_metrics config_yaml dir data_files language
                          "enterprise" with
                  | Raise e => Uncaught e
                  | Ok enterprise_metrics =>
                      match operational_metrics, enterprise_metrics with
                      | None, None => Exit 1
                      | _, _ =>
                          match create_sdk_comparison_dashboard dir
                                  data_files lang operational_metrics
                                  enterprise_metrics with
                          | Raise e => Uncaught e
                          | Ok figure =>
                              Finished
                                (figure,
                                 print_sdk_comparison_summary
                                   operational_metrics enterprise_metrics
                                   lang)
                          end
                      end
                  end
              end
          end
      end
  end.

Local Close Scope string_scope.

End DashboardGenerator.

(* ===================================================================== *)
(** ** analysis/dashboard-generator.py *)
(* ===================================================================== *)

Module DashboardGeneratorHyphen.
Import Py.

(** [load_config()]: every exception is caught. *)
Definition load_config (config_yaml : Yaml.source)
  : result (option Yaml.Config) :=
  match config_yaml with
  | Ok c => Ok c
  | Raise _ => Ok None
  end.

(** [calculate_detailed_metrics(df)] *)
Definition calculate_detailed_metrics (config_yaml : Yaml.source)
    (df : DataFrame) : result (option RunMetrics) :=
  if empty df then Ok None else
  config <- load_config config_yaml ;;
  let test_duration_ms := Yaml.test_duration_ms config in
  let test_duration_s := test_duration_ms / 1000 in
  let total_requests := List.length (rows df) in
  let successful_df := filter success (rows df) in
  let success_count := List.length successful_df in
  let success_rate :=
    if (0 <? total_requests)%nat
    then INR success_count / INR total_requests * 100
    else 0 in
  match successful_df with
  | [] =>
      Ok (Some {| total_requests := total_requests;
                  success_rate := Fin 0;
                  avg_latency := Fin 0;
                  min_latency := Fin 0;
                  max_latency := Fin 0;
                  std_latency := Fin 0;
                  p95_latency := Fin 0;
                  p99_latency := Fin 0;
                  throughput := Fin 0;
                  test_duration_s := Fin test_duration_s;
                  language := None |})
  | _ :: _ =>
      '(throughput, final_test_duration_s) <-
        (if has_timestamp_column df && (1 <? success_count)%nat
         then
           let timestamps :=
             map (fun r => cell (timestamp r)) successful_df in
           '(start_ms, end_ms) <-
             match timestamp_dtype df with
             | datetime64 =>
                 s <- Pandas.Timestamp_timestamp (Pandas.min timestamps) ;;
                 e <- Pandas.Timestamp_timestamp (Pandas.max timestamps) ;;
                 Ok (Fin (s * 1000), Fin (e * 1000))
             | float64 =>
                 Ok (Pandas.min timestamps, Pandas.max timestamps)
             end ;;
           let actual_duration_s :=
             fdiv_const (fsub end_ms start_ms) 1000 in
           let actual_duration_s := Py.max actual_duration_s (Fin 1) in
           throughput <- truediv success_count actual_duration_s ;;
           Ok (throughput, actual_duration_s)
         else
           throughput <- truediv success_count (Fin test_duration_s) ;;
           Ok (throughput, Fin test_duration_s)) ;;
      let latencies := map (fun r => Fin (duration_ms r)) successful_df in
      Ok (Some {| total_requests := total_requests;
                  success_rate := Fin success_rate;
                  avg_latency := Pandas.mean latencies;
                  min_latency := Pandas.min latencies;
                  max_latency := Pandas.max latencies;
                  std_latency := Pandas.std latencies;
                  p95_latency := Pandas.quantile 95 100 latencies;
                  p99_latency := Pandas.quantile 99 100 latencies;
                  throughput := throughput;
                  test_duration_s := final_test_duration_s;
                  language := None |})
  end.

(** *** The dashboard and the console summary *)

Local Open Scope string_scope.

(** The sampled line of one variant in the chart of the performance
    over the request sequence; [succ] is the successful subset. *)
Definition sequence_series (name : string) (succ : list RequestRecord)
  : result (list Plot.placed) :=
  match succ with
  | [] => Ok []
  | _ :: _ =>
      let time_series :=
        combine (seq 0 (List.length succ)) succ in
      let sample_size := Nat.min 100 (List.length time_series) in
      sampled <-
        Pandas.iloc_step (List.length time_series / sample_size)
          time_series ;;
      Ok [ (Plot.Scatter name
              (map (fun p => Fin (INR (fst p))) sampled)
              (map (fun p => Fin (duration_ms (snd p))) sampled),
            (3, 1)%nat) ]
  end.

(** One row of [metrics_data]. *)
Definition summary_cells (name : string) (metrics : option RunMetrics)
  : list Plot.cell :=
  match metrics with
  | None =>
      [ Plot.Text ("<b>" ++ name ++ "</b>"); Plot.Text "No data";
        Plot.Text "No data"; Plot.Text "No data"; Plot.Text "No data";
        Plot.Text "No data"; Plot.Text "No data"; Plot.Text "No data";
        Plot.Text "No data" ]
  | Some m =>
      [ Plot.Text ("<b>" ++ name ++ "</b>");
        Plot.Fixed1 (success_rate m) "%";
        Plot.Fixed1 (throughput m) "";
        Plot.Fixed1 (avg_latency m) "";
        Plot.Fixed1 (min_latency m) "";
        Plot.Fixed1 (max_latency m) "";
        Plot.Fixed1 (std_latency m) "";
        Plot.Fixed1 (p95_latency m) "";
        Plot.Fixed1 (p99_latency m) "" ]
  end.

(** [create_detailed_summary_table(op_metrics, ent_metrics)] *)
Definition create_detailed_summary_table
    (op_metrics ent_metrics : option RunMetrics) : Plot.trace :=
  let metrics_data :=
    [ summary_cells "Operational SDK" op_metrics;
      summary_cells "Enterprise SDK" ent_metrics ] in
  Plot.Table
    [ "<b>SDK</b>"; "<b>Success<br>Rate</b>"; "<b>Throughput<br>(req/s)</b>";
      "<b>Average<br>(ms)</b>"; "<b>Min<br>(ms)</b>"; "<b>Max<br>(ms)</b>";
      "<b>Std Dev<br>(ms)</b>"; "<b>P95<br>(ms)</b>"; "<b>P99<br>(ms)</b>" ]
    (Plot.zip_star metrics_data).

(** The bars, drawn only when both variants have metrics. *)
Definition comparison_bars (op_metrics ent_metrics : option RunMetrics)
  : list Plot.placed :=
  match op_metrics, ent_metrics with
  | Some o, Some e =>
      let op_latencies := [avg_latency o; p95_latency o; p99_latency o] in
      let ent_latencies := [avg_latency e; p95_latency e; p99_latency e] in
      let throughput_data := [throughput o; throughput e] in
      [ (Plot.Bar (Some "Operational SDK") ["Average"; "P95"; "P99"]
           op_latencies (map (fun val => Plot.Fixed1 val "ms") op_latencies),
         (2, 1)%nat);
        (Plot.Bar (Some "Enterprise SDK") ["Average"; "P95"; "P99"]
           ent_latencies
           (map (fun val => Plot.Fixed1 val "ms") ent_latencies),
         (2, 1)%nat);
        (Plot.Bar None ["Operational SDK"; "Enterprise SDK"] throughput_data
           (map (fun val => Plot.Fixed1 val "") throughput_data),
         (2, 2)%nat) ]
  | _, _ => []
  end.

(** [create_developer_dashboard(operational_df, enterprise_df, ...)]:
    the traces of the figure that is written, and the metrics
    returned. *)
Definition create_developer_dashboard (config_yaml : Yaml.source)
    (operational_df enterprise_df : DataFrame)
  : result (list Plot.placed * (option RunMetrics * option RunMetrics)) :=
  op_metrics <- calculate_detailed_metrics config_yaml operational_df ;;
  ent_metrics <- calculate_detailed_metrics config_yaml enterprise_df ;;
  let op_succ :=
    if negb (empty operational_df)
    then filter success (rows operational_df) else [] in
  let ent_succ :=
    if negb (empty enterprise_df)
    then filter success (rows enterprise_df) else [] in
  series <-
    (if Plot.nonempty op_succ || Plot.nonempty ent_succ
     then
       operational <- sequence_series "Operational SDK" op_succ ;;
       enterprise <- sequence_series "Enterprise SDK" ent_succ ;;
       Ok (operational ++ enterprise)%list
     else Ok []) ;;
  Ok ((create_detailed_summary_table op_metrics ent_metrics, (1, 1)%nat)
      :: comparison_bars op_metrics ent_metrics ++ series,
      (op_metrics, ent_metrics))%list.

(** The verdicts of [print_comparison_summary]. *)
Definition analysis (o e : RunMetrics) : list Console.line :=
  [ Console.ComparisonHeader;
    (if fltb (avg_latency e) (avg_latency o)
     then Console.LowerLatency "Enterprise"
            (fsub (avg_latency o) (avg_latency e))
     else Console.LowerLatency "Operational"
            (fsub (avg_latency e) (avg_latency o)));
    (if fltb (p95_latency e) (p95_latency o)
     then Console.BetterP95 "Enterprise"
            (fsub (p95_latency o) (p95_latency e))
     else Console.BetterP95 "Operational"
            (fsub (p95_latency e) (p95_latency o)));
    (if fgtb (throughput e) (throughput o)
     then Console.HigherThroughput "Enterprise"
            (fsub (throughput e) (throughput o))
     else Console.HigherThroughput "Operational"
            (fsub (throughput o) (throughput e)));
    (if fltb (std_latency e) (std_latency o)
     then Console.MoreConsistent "Enterprise"
     else Console.MoreConsistent "Operational") ].

(** [print_comparison_summary(op_metrics, ent_metrics)]: the lines
    printed. *)
Definition print_comparison_summary
    (op_metrics ent_metrics : option RunMetrics) : list Console.line :=
  let banner :=
    [ Console.Rule 80; Console.Title ""; Console.Rule 80 ] in
  match op_metrics, ent_metrics with
  | Some o, Some e =>
      (banner
       ++ [ Console.DetailedHeader; Console.ColumnHeader; Console.Rule 50;
            Console.PairRow "Success Rate:" (success_rate o) (success_rate e);
            Console.PairRow "Throughput:" (throughput o) (throughput e);
            Console.PairRow "Average Latency:" (avg_latency o)
              (avg_latency e);
            Console.PairRow "Min Latency:" (min_latency o) (min_latency e);
            Console.PairRow "Max Latency:" (max_latency o) (max_latency e);
            Console.PairRow "Std Deviation:" (std_latency o) (std_latency e);
            Console.PairRow "95th Percentile:" (p95_latency o)
              (p95_latency e);
            Console.PairRow "99th Percentile:" (p99_latency o)
              (p99_latency e) ]
       ++ analysis o e
       ++ [ Console.Footer; Console.Rule 80 ])%list
  | _, _ => (banner ++ [ Console.Unable ])%list
  end.

Local Close Scope string_scope.

End DashboardGeneratorHyphen.

(* ===================================================================== *)
(** ** analysis/analyze_multi_run_results.py *)
(* ===================================================================== *)

Module MultiRun.
Import Py.
Local Open Scope string_scope.

(** [all_metrics = {'operational': [], 'enterprise': []}] *)
Definition all_metrics_init : dict (list RunMetrics) :=
  [("operational", []); ("enterprise", [])].

(** [all_metrics[sdk_type].append(metrics)] *)
Definition append_metrics (all_metrics : dict (list RunMetrics))
    (sdk_type : string) (metrics : RunMetrics)
  : result (dict (list RunMetrics)) :=
  match dict_get sdk_type all_metrics with
  | Some l => Ok (dict_set sdk_type (l ++ [metrics])%list all_metrics)
  | None => Raise KeyError
  end.

(** Body of the loop over [data_files.items()]. *)
Definition process_file (config_yaml : Yaml.source) (run_dir : RunDir)
    (language : option string) (all_metrics : dict (list RunMetrics))
    (item : string * FileInfo.t) : result (dict (list RunMetrics)) :=
  let '(sdk_type, file_info) := item in
  let df := DashboardGenerator.load_data run_dir (FileInfo.path file_info) in
  if negb (empty df) then
    metrics <- DashboardGenerator.calculate_detailed_metrics
                 config_yaml df language ;;
    match metrics with
    | Some m => append_metrics all_metrics sdk_type m   (* a dict with keys is truthy *)
    | None => Ok all_metrics
    end
  else Ok all_metrics.

Fixpoint process_files (config_yaml : Yaml.source) (run_dir : RunDir)
    (language : option string) (all_metrics : dict (list RunMetrics))
    (items : list (string * FileInfo.t))
  : result (dict (list RunMetrics)) :=
  match items with
  | [] => Ok all_metrics
  | item :: rest =>
      all_metrics' <-
        process_file config_yaml run_dir language all_metrics item ;;
      process_files config_yaml run_dir language all_metrics' rest
  end.

(** Body of the loop over the runs. *)
Definition process_run (config_yaml : Yaml.source)
    (all_metrics : dict (list RunMetrics)) (run_dir : RunDir)
  : result (dict (list RunMetrics)) :=
  let '(data_files, language) :=
    DashboardGenerator.auto_detect_result_files run_dir in
  match data_files with
  | [] => Ok all_metrics                                (* continue *)
  | _ :: _ =>
      process_files config_yaml run_dir language all_metrics data_files
  end.

Fixpoint process_runs (config_yaml : Yaml.source)
    (all_metrics : dict (list RunMetrics)) (run_dirs : list RunDir)
  : result (dict (list RunMetrics)) :=
  match run_dirs with
  | [] => Ok all_metrics
  | run_dir :: rest =>
      all_metrics' <- process_run config_yaml all_metrics run_dir ;;
      process_runs config_yaml all_metrics' rest
  end.

(** [sorted(run_dirs, key=lambda p: int(p.name.split('_')[1]))]: a
    stable sort on the run number. *)
Fixpoint insert_run (d : RunDir) (l : list RunDir) : list RunDir :=
  match l with
  | [] => [d]
  | e :: t =>
      if (run_number e <=? run_number d)%nat
      then e :: insert_run d t
      else d :: l
  end.

Definition sorted_runs (run_dirs : list RunDir) : list RunDir :=
  fold_left (fun acc d => insert_run d acc) run_dirs [].

(** The numeric columns of [pd.DataFrame(list_of_metrics)]. *)
Definition column_of (key : string) : option (RunMetrics -> pyfloat) :=
  if key =? "throughput" then Some throughput
  else if key =? "avg_latency" then Some avg_latency
  else if key =? "p95_latency" then Some p95_latency
  else if key =? "p99_latency" then Some p99_latency
  else if key =? "std_latency" then Some std_latency
  else if key =? "min_latency" then Some min_latency
  else if key =? "max_latency" then Some max_latency
  else if key =? "success_rate" then Some success_rate
  else if key =? "test_duration_s" then Some test_duration_s
  else if key =? "total_requests"
       then Some (fun m => Fin (INR (total_requests m)))
  else None.

Definition metrics_to_report : list (string * string) :=
  [ ("throughput", "Throughput (req/s)");
    ("avg_latency", "Avg Latency (ms)");
    ("p95_latency", "P95 Latency (ms)");
    ("p99_latency", "P99 Latency (ms)");
    ("std_latency", "Std Dev Latency (ms)") ].

(** A row of [summary_data]; the mean and the standard deviation are
    kept as numbers, before they are printed with two decimals. *)
Record SummaryRow : Type := {
  sdk : string;
  metric : string;
  mean : pyfloat;
  std_dev : pyfloat
}.

(** The rows that one frame adds for one metric:
    [if not df.empty and key in df.columns]. *)
Definition summary_rows (label : string) (frame : list RunMetrics)
    (key name : string) : list SummaryRow :=
  match frame, column_of key with
  | _ :: _, Some col =>
      [ {| sdk := label; metric := name;
           mean := Pandas.mean (map col frame);
           std_dev := Pandas.std (map col frame) |} ]
  | _, _ => []
  end.

(** [print_summary(op_df, ent_df, num_runs)]: the rows of the printed
    table, [None] when there is nothing to summarise. *)
Definition print_summary (op_df ent_df : list RunMetrics) (num_runs : nat)
  : option (list SummaryRow) :=
  match op_df, ent_df with
  | [], [] => None
  | _, _ =>
      Some (flat_map
              (fun '(key, name) =>
                 (summary_rows "Operational" op_df key name
                  ++ summary_rows "Enterprise" ent_df key name)%list)
              metrics_to_report)
  end.

Definition frame_of (all_metrics : dict (list RunMetrics)) (k : string)
  : result (list RunMetrics) :=
  match dict_get k all_metrics with
  | Some l => Ok l
  | None => Raise KeyError
  end.

(** [analyze_multi_run(base_dir)], [run_dirs] being the directories
    [run_N] of [base_dir]. *)
Definition analyze_multi_run (config_yaml : Yaml.source)
    (run_dirs : list RunDir) : result (option (list SummaryRow)) :=
  match run_dirs with
  | [] => Ok None
  | _ :: _ =>
      all_metrics <-
        process_runs config_yaml all_metrics_init (sorted_runs run_dirs) ;;
      op_df <- frame_of all_metrics "operational" ;;
      ent_df <- frame_of all_metrics "enterprise" ;;
      Ok (print_summary op_df ent_df (List.length run_dirs))
  end.

End MultiRun.

(* ===================================================================== *)
(** ** Vocabulary of the specification *)
(* ===================================================================== *)

(** The successful subset of a store and its latencies. *)
Definition successes (df : DataFrame) : list RequestRecord :=
  filter success (rows df).

Definition latencies (df : DataFrame) : list R :=
  map duration_ms (successes df).

(** The nominal duration, in seconds, that a loaded configuration
    supplies. *)
Definition nominal_duration_s (config : option Yaml.Config) : R :=
  Yaml.test_duration_ms config / 1000.

(** [a] is the arithmetic mean of [xs]. *)
Definition is_mean (a : R) (xs : list R) : Prop :=
  a * INR (List.length xs) = Pandas.sum xs.

(** [s] is the sample standard deviation of [xs] (denominator N-1). *)
Definition is_sample_std (s : R) (xs : list R) : Prop :=
  exists a, is_mean a xs /\ 0 <= s /\
    s * s * (INR (List.length xs) - 1)
    = Pandas.sum (map (fun x => (x - a) * (x - a)) xs).

(** [s] lists the order statistics of [xs]. *)
Definition order_statistics (s xs : list R) : Prop :=
  Permutation s xs /\ StronglySorted Rle s.

(** The [num/den] quantile of the order statistics [s] by linear
    interpolation: with [(n-1) * num = den * i + r], it lies a fraction
    [r/den] of the way from the [i]-th to the next order statistic. *)
Definition interpolate (num den : nat) (s : list R) : R :=
  let n := List.length s in
  let i := ((n - 1) * num / den)%nat in
  let r := ((n - 1) * num mod den)%nat in
  nth i s 0 + (nth (Nat.min (i + 1) (n - 1)) s 0 - nth i s 0)
              * (INR r / INR den).

(** The least and the greatest element of a non-empty list. *)
Definition is_least (v : R) (xs : list R) : Prop :=
  In v xs /\ forall x, In x xs -> v <= x.

Definition is_greatest (v : R) (xs : list R) : Prop :=
  In v xs /\ forall x, In x xs -> x <= v.

(** The zero-valued summary of a store without successful record. *)
Definition zero_metrics (total : nat) (nominal : R)
    (language : option string) : RunMetrics :=
  {| total_requests := total;
     success_rate := Py.Fin 0; avg_latency := Py.Fin 0;
     min_latency := Py.Fin 0; max_latency := Py.Fin 0;
     std_latency := Py.Fin 0; p95_latency := Py.Fin 0;
     p99_latency := Py.Fin 0; throughput := Py.Fin 0;
     test_duration_s := Py.Fin nominal;
     language := language |}.

(** The timestamps, in milliseconds, that the successful records carry. *)
Definition success_timestamps (df : DataFrame) : list R :=
  Pandas.dropna (map (fun r => cell (timestamp r)) (successes df)).

Definition least (x : R) (xs : list R) : R := fold_left Rmin xs x.
Definition greatest (x : R) (xs : list R) : R := fold_left Rmax xs x.

(** Span between the earliest and the latest of a list of instants. *)
Definition span (ts : list R) : R :=
  match ts with
  | [] => 0
  | t :: rest => greatest t rest - least t rest
  end.

Section Decomposition.
Import Py.

(** The throughput and duration step of the routine, as a function of
    the successful count and the nominal duration. *)
Definition throughput_step (df : DataFrame) (test_duration_s : R)
  : result (pyfloat * pyfloat) :=
  let successful_df := successes df in
  let success_count := List.length successful_df in
  if has_timestamp_column df && (1 <? success_count)%nat
  then
    let timestamps := map (fun r => cell (timestamp r)) successful_df in
    '(start_ms, end_ms) <-
      match timestamp_dtype df with
      | datetime64 =>
          s <- Pandas.Timestamp_timestamp (Pandas.min timestamps) ;;
          e <- Pandas.Timestamp_timestamp (Pandas.max timestamps) ;;
          Ok (Fin (s * 1000), Fin (e * 1000))
      | float64 => Ok (Pandas.min timestamps, Pandas.max timestamps)
      end ;;
    let actual_duration_s := fdiv_const (fsub end_ms start_ms) 1000 in
    let actual_duration_s := Py.max actual_duration_s (Fin 1) in
    throughput <- truediv success_count actual_duration_s ;;
    Ok (throughput, actual_duration_s)
  else
    throughput <- truediv success_count (Fin test_duration_s) ;;
    Ok (throughput, Fin test_duration_s).

(** The summary that is returned once the throughput step went through. *)
Definition latency_metrics (df : DataFrame) (language : option string)
    (td : pyfloat * pyfloat) : RunMetrics :=
  let lat := map (fun r => Fin (duration_ms r)) (successes df) in
  {| total_requests := List.length (rows df);
     success_rate :=
       Fin (if (0 <? List.length (rows df))%nat
            then INR (List.length (successes df))
                 / INR (List.length (rows df)) * 100
            else 0);
     avg_latency := Pandas.mean lat;
     min_latency := Pandas.min lat;
     max_latency := Pandas.max lat;
     std_latency := Pandas.std lat;
     p95_latency := Pandas.quantile 95 100 lat;
     p99_latency := Pandas.quantile 99 100 lat;
     throughput := fst td;
     test_duration_s := snd td;
     language := language |}.

End Decomposition.

(** *** The claims on the calculator, as the specification words them *)





(** *** The two copies of the routine *)

(** The numeric fields that both copies report. *)
Definition numeric_fields (m : RunMetrics) : nat * list Py.pyfloat :=
  (total_requests m,
   [ success_rate m; avg_latency m; min_latency m; max_latency m;
     std_latency m; p95_latency m; p99_latency m; throughput m;
     test_duration_s m ]).

(** Two outcomes agree when both are absent, both are summaries with the
    same numeric fields, or both are the same exception. *)
Definition agree (a b : Py.result (option RunMetrics)) : Prop :=
  match a, b with
  | Py.Ok None, Py.Ok None => True
  | Py.Ok (Some x), Py.Ok (Some y) => numeric_fields x = numeric_fields y
  | Py.Raise e1, Py.Raise e2 => e1 = e2
  | _, _ => False
  end.

(** The equivalence of the copies as worded: for every frame and every
    state of the configuration file. *)
Definition copies_agree_as_stated : Prop :=
  forall (config_yaml : Yaml.source) (df : DataFrame)
         (language : option string),
    agree
      (DashboardGenerator.calculate_detailed_metrics config_yaml df language)
      (DashboardGeneratorHyphen.calculate_detailed_metrics config_yaml df).

(** *** Cross-run aggregation *)




(** The sample variance that [Pandas.std] takes the root of. *)
Definition sample_variance (xs : list R) : R :=
  let avg := Pandas.sum xs / INR (List.length xs) in
  Pandas.sum (map (fun x => (avg - x) * (avg - x)) xs)
  / (INR (List.length xs) - 1).

(** *** The result set resolver *)

(** The naming conventions in priority order: the label of each and,
    per canonical variant key, the file it names. *)
Definition conventions : list (string * list (string * string)) :=
  [ ("java"%string,
     [ ("operational"%string, "operational-java.jsonl"%string);
       ("enterprise"%string, "enterprise-java.jsonl"%string) ]);
    ("go"%string,
     [ ("operational"%string, "operational-go.jsonl"%string);
       ("enterprise"%string, "enterprise-go.jsonl"%string) ]);
    ("unknown"%string,
     [ ("operational"%string, "operational.jsonl"%string);
       ("enterprise"%string, "enterprise.jsonl"%string) ]) ].

(** What a resolution tells: the file of each variant and the label. *)
Definition resolved (r : dict FileInfo.t * option string)
  : list (string * string) * option string :=
  (map (fun '(k, info) => (k, FileInfo.path info)) (fst r), snd r).

(** The resolver as worded: the first convention whose files are all
    present; an empty mapping and no label when there is none. *)
Fixpoint first_fully_present (run_dir : RunDir)
    (cs : list (string * list (string * string)))
  : list (string * string) * option string :=
  match cs with
  | [] => ([], None)
  | (label, files) :: rest =>
      if forallb (fun kf => DashboardGenerator.exists_nonempty run_dir
                              (snd kf)) files
      then (files, Some label)
      else first_fully_present run_dir rest
  end.

Definition resolver_as_stated : Prop :=
  forall run_dir : RunDir,
    resolved (DashboardGenerator.auto_detect_result_files run_dir)
    = if raw_exists run_dir then first_fully_present run_dir conventions
      else ([], None).

(** The entries of a convention for the files that are present. *)
Definition present_entries (run_dir : RunDir) (label : string)
    (files : list (string * string)) : dict FileInfo.t :=
  map (fun kf =>
         (fst kf,
          {| FileInfo.path := snd kf;
             FileInfo.sdk_type := fst kf;
             FileInfo.language := label;
             FileInfo.display_name := (Py.title (fst kf) ++ " SDK")%string |}))
      (filter (fun kf => DashboardGenerator.exists_nonempty run_dir (snd kf))
         files).

(** The resolver as amended: without [raw/], nothing and no label; else
    the present files of the first language-specific convention that has
    one; else the present files of the legacy convention, labelled
    "unknown" even when there is none. *)
Fixpoint first_present (run_dir : RunDir)
    (cs : list (string * list (string * string)))
  : dict FileInfo.t * option string :=
  match cs with
  | [] => ([], None)
  | [(label, files)] => (present_entries run_dir label files, Some label)
  | (label, files) :: rest =>
      match present_entries run_dir label files with
      | [] => first_present run_dir rest
      | found => (found, Some label)
      end
  end.

Definition resolve_amended (run_dir : RunDir)
  : dict FileInfo.t * option string :=
  if raw_exists run_dir then first_present run_dir conventions
  else ([], None).

(** A run directory whose [raw/] holds no file. *)
Definition empty_raw : RunDir :=
  {| run_number := 1; raw_exists := true;
     getsize := fun _ => None; read_json := fun _ => empty_frame |}.

(** A run directory with one of the two Java files and both Go files. *)
Definition partial_java : RunDir :=
  {| run_number := 1; raw_exists := true;
     getsize := fun name =>
       if String.eqb name "operational-java.jsonl" then Some 120%nat
       else if String.eqb name "operational-go.jsonl" then Some 80%nat
       else if String.eqb name "enterprise-go.jsonl" then Some 90%nat
       else None;
     read_json := fun _ => empty_frame |}.

(* ===================================================================== *)
(** ** Scenarios *)
(* ===================================================================== *)

Definition succeeded (d : R) (ts st : option R) : RequestRecord :=
  {| success := true; duration_ms := d; timestamp := ts; start_time := st |}.

Definition failed (ts : option R) : RequestRecord :=
  {| success := false; duration_ms := 0; timestamp := ts;
     start_time := None |}.

Definition frame (l : list RequestRecord) : DataFrame :=
  {| rows := l; timestamp_dtype := float64 |}.

(** [config.yaml] with [test: {duration_ms: d}]. *)
Definition config_with (d : R) : Yaml.source :=
  Py.Ok (Some {| Yaml.test := Some {| Yaml.duration_ms := Some d |} |}).

(** No [config.yaml]: the default of 30 seconds applies. *)
Definition no_config : Yaml.source := Py.Raise Py.FileNotFoundError.

(** Scenario A: ten records, eight of them successful, no timestamps. *)
Definition scenario_A : DataFrame :=
  frame [ succeeded 10 None None; succeeded 12 None None; failed None;
          succeeded 11 None None; succeeded 13 None None;
          succeeded 12 None None; failed None; succeeded 14 None None;
          succeeded 11 None None; succeeded 100 None None ].

(** Scenario B: three successful records whose [start_time] spans half a
    second; no [timestamp]. *)
Definition scenario_B : DataFrame :=
  frame [ succeeded 5 None (Some 0); succeeded 6 None (Some 250000000);
          succeeded 7 None (Some 500000000) ].

(** Scenario D: five records, none successful. *)
Definition scenario_D : DataFrame :=
  frame [ failed None; failed None; failed None; failed None; failed None ].

(** Two successful records, three seconds apart on the [timestamp]
    axis. *)
Definition timed_pair : DataFrame :=
  frame [ succeeded 5 (Some 1000) None; succeeded 7 (Some 4000) None ].

(** One successful record without time information. *)
Definition lone_success : DataFrame := frame [ succeeded 5 None None ].

(** Two successful records without timestamp next to a failed record
    that has one: the [timestamp] column exists, typed [dtype], and is
    empty on the successful subset. *)
Definition untimed_successes (dtype : ts_dtype) : DataFrame :=
  {| rows := [ succeeded 5 None None; succeeded 7 None None;
               failed (Some 1000) ];
     timestamp_dtype := dtype |}.

(** A per-run summary reduced to its average latency. *)
Definition run_with_avg (a : R) : RunMetrics :=
  {| total_requests := 1;
     success_rate := Py.Fin 100; avg_latency := Py.Fin a;
     min_latency := Py.Fin a; max_latency := Py.Fin a;
     std_latency := Py.NaN; p95_latency := Py.Fin a;
     p99_latency := Py.Fin a; throughput := Py.Fin 1;
     test_duration_s := Py.Fin 1; language := Some "go"%string |}.

(** Scenario E: two runs of one variant, with average latencies 10 and
    20. *)
Definition scenario_E : list RunMetrics :=
  [ run_with_avg 10; run_with_avg 20 ].

(** A run directory under the legacy convention whose operational file
    holds the records of Scenario D. *)
Definition failed_run : RunDir :=
  {| run_number := 2;
     raw_exists := true;
     getsize := fun name =>
       if String.eqb name "operational.jsonl" then Some 260%nat else None;
     read_json := fun _ => scenario_D |}.

Definition failed_run_file : FileInfo.t :=
  {| FileInfo.path := "operational.jsonl";
     FileInfo.sdk_type := "operational";
     FileInfo.language := "unknown";
     FileInfo.display_name := "Operational SDK" |}.

(** *** The loop over the runs *)


(** The number of summaries collected for a variant. *)
Definition data_points (v : string) (all_metrics : dict (list RunMetrics))
  : nat :=
  match dict_get v all_metrics with
  | Some l => List.length l
  | None => 0
  end.

(** A run directory under the Go convention whose operational file holds
    one successful record. *)
Definition lone_run : RunDir :=
  {| run_number := 1;
     raw_exists := true;
     getsize := fun name =>
       if String.eqb name "operational-go.jsonl" then Some 52%nat else None;
     read_json := fun _ => lone_success |}.

(** Run directories in ascending order of their run number. *)
Definition ascending : list RunDir -> Prop :=
  StronglySorted (fun a b => (run_number a <= run_number b)%nat).

(** A third run directory, numbered 10, without [raw/]. *)
Definition tenth_run : RunDir :=
  {| run_number := 10; raw_exists := false;
     getsize := fun _ => None; read_json := fun _ => empty_frame |}.

(** *** Console verdicts *)

(** The same line with the two SDKs exchanged as winners. *)
Definition exchanged (l : Console.line) : Console.line :=
  let other (w : string) : string :=
    if String.eqb w "Enterprise" then "Operational"%string
    else "Enterprise"%string in
  match l with
  | Console.LowerLatency w d => Console.LowerLatency (other w) d
  | Console.HigherThroughput w d => Console.HigherThroughput (other w) d
  | Console.BetterP95 w d => Console.BetterP95 (other w) d
  | Console.MoreConsistent w => Console.MoreConsistent (other w)
  | _ => l
  end.

(** The margin that a verdict line announces, if it names a winner. *)
Definition margin (l : Console.line) : option Py.pyfloat :=
  match l with
  | Console.LowerLatency _ d => Some d
  | Console.HigherThroughput _ d => Some d
  | Console.BetterP95 _ d => Some d
  | _ => None
  end.



(* ===================================================================== *)
(** ** Facts about the reductions *)
(* ===================================================================== *)

Section SeriesFacts.
Import Py.

Lemma dropna_Fin {A : Type} (f : A -> R) (l : list A) :
  Pandas.dropna (map (fun r => Fin (f r)) l) = map f l.
Proof.
  induction l as [|a l IH]; simpl; [reflexivity | now rewrite IH].
Qed.

Lemma least_spec (xs : list R) (x : R) :
  is_least (least x xs) (x :: xs).
Proof.
  unfold least. revert x.
  induction xs as [|y ys IH]; intros x; simpl.
  - split; [now left | intros z [<- | []]; lra].
  - destruct (IH (Rmin x y)) as [Hin Hle]. split.
    + destruct Hin as [Heq | Hin].
      * rewrite <- Heq. unfold Rmin.
        destruct (Rle_dec x y); [now left | right; now left].
      * right; now right.
    + intros z Hz.
      assert (Hm : fold_left Rmin ys (Rmin x y) <= Rmin x y)
        by (apply Hle; now left).
      destruct Hz as [<- | [<- | Hz]].
      * pose proof (Rmin_l x y). lra.
      * pose proof (Rmin_r x y). lra.
      * apply Hle. now right.
Qed.

Lemma greatest_spec (xs : list R) (x : R) :
  is_greatest (greatest x xs) (x :: xs).
Proof.
  unfold greatest. revert x.
  induction xs as [|y ys IH]; intros x; simpl.
  - split; [now left | intros z [<- | []]; lra].
  - destruct (IH (Rmax x y)) as [Hin Hle]. split.
    + destruct Hin as [Heq | Hin].
      * rewrite <- Heq. unfold Rmax.
        destruct (Rle_dec x y); [right; now left | now left].
      * right; now right.
    + intros z Hz.
      assert (Hm : Rmax x y <= fold_left Rmax ys (Rmax x y))
        by (apply Hle; now left).
      destruct Hz as [<- | [<- | Hz]].
      * pose proof (Rmax_l x y). lra.
      * pose proof (Rmax_r x y). lra.
      * apply Hle. now right.
Qed.



Lemma insert_perm (x : R) (l : list R) :
  Permutation (Pandas.insert x l) (x :: l).
Proof.
  induction l as [|y l IH]; simpl; [reflexivity|].
  destruct (Rle_dec x y); [reflexivity|].
  rewrite IH. apply perm_swap.
Qed.

Lemma insert_sorted (x : R) (l : list R) :
  StronglySorted Rle l -> StronglySorted Rle (Pandas.insert x l).
Proof.
  induction l as [|y l IH]; intros Hs; simpl.
  - constructor; constructor.
  - inversion Hs as [|? ? Hs' Hall]; subst.
    destruct (Rle_dec x y) as [Hle | Hnle].
    + constructor; [assumption|].
      constructor; [assumption|].
      eapply Forall_impl; [|exact Hall]. intros z Hz. simpl in Hz. lra.
    + constructor; [now apply IH|].
      apply Forall_forall. intros z Hz.
      apply (Permutation_in _ (insert_perm x l)) in Hz.
      destruct Hz as [<- | Hz]; [lra|].
      rewrite Forall_forall in Hall. now apply Hall.
Qed.

Lemma sort_values_spec (l : list R) :
  order_statistics (Pandas.sort_values l) l.
Proof.
  unfold order_statistics, Pandas.sort_values.
  induction l as [|x l [IHp IHs]]; simpl.
  - split; [reflexivity | constructor].
  - split.
    + rewrite insert_perm. now constructor.
    + now apply insert_sorted.
Qed.


End SeriesFacts.


(* ===================================================================== *)
(** ** The run metrics calculator *)
(* ===================================================================== *)

Section Calculator.
Import Py.

Lemma max_floor (x : R) : Py.max (Fin x) (Fin 1) = Fin (Rmax x 1).
Proof.
  unfold Py.max, fgtb, Rmax.
  destruct (Rlt_dec x 1), (Rle_dec x 1); try reflexivity; try lra.
  f_equal. lra.
Qed.

Lemma truediv_Fin (n : nat) (y : R) :
  y <> 0 -> truediv n (Fin y) = Ok (Fin (INR n / y)).
Proof.
  intros Hy. unfold truediv. destruct (Req_dec_T y 0); [contradiction|].
  reflexivity.
Qed.


Lemma empty_false (df : DataFrame) : rows df <> [] -> empty df = false.
Proof. unfold empty. destruct (rows df); congruence. Qed.


(** The routine, read branch by branch. *)
Lemma calculate_cases (config_yaml : Yaml.source) (df : DataFrame)
    (language : option string) :
  DashboardGenerator.calculate_detailed_metrics config_yaml df language =
  if empty df then Ok None else
  config <- DashboardGenerator.load_config config_yaml ;;
  match successes df with
  | [] => Ok (Some (zero_metrics (List.length (rows df))
                      (nominal_duration_s config) language))
  | _ :: _ =>
      td <- throughput_step df (nominal_duration_s config) ;;
      Ok (Some (latency_metrics df language td))
  end.
Proof.
  unfold DashboardGenerator.calculate_detailed_metrics.
  destruct (empty df); [reflexivity|].
  destruct (DashboardGenerator.load_config config_yaml) as [config|e];
    [|reflexivity].
  cbn [bind]. unfold throughput_step, successes, nominal_duration_s.
  destruct (filter success (rows df)) as [|r rs] eqn:Hs; [reflexivity|].
  match goal with
  | |- bind ?c _ = _ => destruct c as [[t d]|e]
  end; [|reflexivity].
  cbn [bind]. unfold latency_metrics, successes. rewrite Hs. reflexivity.
Qed.

End Calculator.


Section CalculatorFacts.
Import Py.

Lemma throughput_step_nominal (df : DataFrame) (d : R) :
  has_timestamp_column df = false
  \/ (List.length (successes df) <= 1)%nat ->
  d <> 0 ->
  throughput_step df d
  = Ok (Fin (INR (List.length (successes df)) / d), Fin d).
Proof.
  intros Hb Hd. unfold throughput_step.
  replace (has_timestamp_column df
           && (1 <? List.length (successes df))%nat) with false.
  - rewrite truediv_Fin by assumption. reflexivity.
  - symmetry. apply andb_false_iff.
    destruct Hb as [-> | Hle]; [now left | right].
    apply Nat.ltb_ge. exact Hle.
Qed.

Lemma min_cells (df : DataFrame) (t : R) (ts : list R) :
  success_timestamps df = t :: ts ->
  Pandas.min (map (fun r => cell (timestamp r)) (successes df))
  = Fin (least t ts).
Proof. unfold success_timestamps, Pandas.min. now intros ->. Qed.

Lemma max_cells (df : DataFrame) (t : R) (ts : list R) :
  success_timestamps df = t :: ts ->
  Pandas.max (map (fun r => cell (timestamp r)) (successes df))
  = Fin (greatest t ts).
Proof. unfold success_timestamps, Pandas.max. now intros ->. Qed.

Lemma floor_ge_1 (x : R) : 1 <= Rmax x 1.
Proof. apply Rmax_r. Qed.

(** The timestamp branch: elapsed time between the first and the last
    successful instant, floored at one second. *)
Lemma throughput_step_timestamps (df : DataFrame) (d : R) :
  has_timestamp_column df = true ->
  (2 <= List.length (successes df))%nat ->
  success_timestamps df <> [] ->
  let elapsed := Rmax (span (success_timestamps df) / 1000) 1 in
  throughput_step df d
  = Ok (Fin (INR (List.length (successes df)) / elapsed), Fin elapsed).
Proof.
  intros Hcol Hn Hts elapsed. unfold throughput_step.
  rewrite Hcol.
  replace (1 <? List.length (successes df))%nat with true
    by (symmetry; apply Nat.ltb_lt; lia).
  cbn [andb].
  destruct (success_timestamps df) as [|t ts] eqn:Hst; [congruence|].
  rewrite (min_cells df t ts Hst), (max_cells df t ts Hst).
  assert (Hfloor : forall s e,
            e - s = (greatest t ts - least t ts) ->
            (actual <- Ok (Py.max (fdiv_const (fsub (Fin e) (Fin s)) 1000)
                             (Fin 1)) ;;
             throughput <- truediv (List.length (successes df)) actual ;;
             Ok (throughput, actual))
            = Ok (Fin (INR (List.length (successes df)) / elapsed),
                  Fin elapsed)).
  { intros s e Hse. cbn [bind fsub fdiv_const]. rewrite max_floor.
    rewrite Hse. fold (span (t :: ts)). fold elapsed.
    rewrite truediv_Fin; [reflexivity|].
    pose proof (floor_ge_1 (span (t :: ts) / 1000)). fold elapsed in H. lra. }
  destruct (timestamp_dtype df); cbn [Pandas.Timestamp_timestamp bind].
  - apply (Hfloor (least t ts / 1000 * 1000) (greatest t ts / 1000 * 1000)).
    field.
  - apply (Hfloor (least t ts) (greatest t ts)). reflexivity.
Qed.

(** The timestamp branch without any successful instant. *)
Lemma throughput_step_no_instant (df : DataFrame) (d : R) :
  has_timestamp_column df = true ->
  (2 <= List.length (successes df))%nat ->
  success_timestamps df = [] ->
  throughput_step df d
  = match timestamp_dtype df with
    | datetime64 => Raise ValueError
    | float64 => Ok (NaN, NaN)
    end.
Proof.
  intros Hcol Hn Hts. unfold throughput_step.
  rewrite Hcol.
  replace (1 <? List.length (successes df))%nat with true
    by (symmetry; apply Nat.ltb_lt; lia).
  cbn [andb]. unfold Pandas.min, Pandas.max.
  unfold success_timestamps in Hts. rewrite Hts.
  destruct (timestamp_dtype df); reflexivity.
Qed.

Lemma calculate_nonempty (config_yaml : Yaml.source) (df : DataFrame)
    (language : option string) (config : option Yaml.Config) :
  DashboardGenerator.load_config config_yaml = Ok config ->
  successes df <> [] ->
  DashboardGenerator.calculate_detailed_metrics config_yaml df language
  = td <- throughput_step df (nominal_duration_s config) ;;
    Ok (Some (latency_metrics df language td)).
Proof.
  intros Hc Hs. rewrite calculate_cases, Hc.
  assert (Hrows : rows df <> []).
  { intros Hr. apply Hs. unfold successes. now rewrite Hr. }
  rewrite (empty_false df Hrows). cbn [bind].
  destruct (successes df); [congruence | reflexivity].
Qed.

(** Whatever is returned for a store with a successful record is a
    [latency_metrics]. *)
Lemma calculate_inv (config_yaml : Yaml.source) (df : DataFrame)
    (language : option string) (m : RunMetrics) :
  DashboardGenerator.calculate_detailed_metrics config_yaml df language
  = Ok (Some m) ->
  successes df <> [] ->
  exists td, m = latency_metrics df language td.
Proof.
  intros Hm Hs. rewrite calculate_cases in Hm.
  destruct (empty df); [discriminate|].
  destruct (DashboardGenerator.load_config config_yaml) as [config|e];
    [|discriminate].
  cbn [bind] in Hm.
  destruct (successes df) as [|r rs]; [congruence|].
  destruct (throughput_step df (nominal_duration_s config)) as [td|e];
    [|discriminate].
  cbn [bind] in Hm. exists td. congruence.
Qed.

End CalculatorFacts.

(* ===================================================================== *)
(** ** Properties of the run metrics calculator *)
(* ===================================================================== *)





(** The timestamp column of [untimed_successes] is consulted and holds
    no successful instant: typed as instants, [NaT.timestamp()] raises;
    typed as numbers, the elapsed time and the throughput are NaN. *)
Lemma untimed_successes_outcomes :
  DashboardGenerator.calculate_detailed_metrics no_config
    (untimed_successes datetime64) None = Py.Raise Py.ValueError
  /\ exists m,
      DashboardGenerator.calculate_detailed_metrics no_config
        (untimed_successes float64) None = Py.Ok (Some m)
      /\ throughput m = Py.NaN
      /\ test_duration_s m = Py.NaN.
Proof.
  split.
  - rewrite (calculate_nonempty no_config _ None None eq_refl)
      by discriminate.
    rewrite throughput_step_no_instant;
      [reflexivity | reflexivity | simpl; lia | reflexivity].
  - eexists. split.
    + rewrite (calculate_nonempty no_config _ None None eq_refl)
        by discriminate.
      rewrite throughput_step_no_instant;
        [reflexivity | reflexivity | simpl; lia | reflexivity].
    + split; reflexivity.
Qed.






(* ===================================================================== *)
(** ** Latency statistics *)
(* ===================================================================== *)

Section LatencyFacts.
Import Py.

Lemma sort_values_nonempty (l : list R) :
  l <> [] -> Pandas.sort_values l <> [].
Proof.
  intros Hl Hs. destruct (sort_values_spec l) as [Hp _].
  rewrite Hs in Hp. apply Permutation_nil in Hp. contradiction.
Qed.

Lemma sort_values_length (l : list R) :
  List.length (Pandas.sort_values l) = List.length l.
Proof. apply Permutation_length, sort_values_spec. Qed.

Lemma quantile_Fin {A : Type} (f : A -> R) (l : list A) (num den : nat) :
  l <> [] ->
  Pandas.quantile num den (map (fun r => Fin (f r)) l)
  = Fin (interpolate num den (Pandas.sort_values (map f l))).
Proof.
  intros Hl. unfold Pandas.quantile. rewrite dropna_Fin.
  destruct (Pandas.sort_values (map f l)) eqn:Hs; [|reflexivity].
  exfalso. apply (sort_values_nonempty (map f l)); [|assumption].
  destruct l; [congruence | discriminate].
Qed.





Lemma sum_squares_nonneg (a : R) (xs : list R) :
  0 <= Pandas.sum (map (fun x => (a - x) * (a - x)) xs).
Proof.
  induction xs as [|x xs IH]; simpl; [lra|].
  pose proof (Rle_0_sqr (a - x)) as H. unfold Rsqr in H. lra.
Qed.

End LatencyFacts.

Section LatencyFields.
Import Py.

Lemma mean_is_mean (xs : list R) :
  xs <> [] -> is_mean (Pandas.sum xs / INR (List.length xs)) xs.
Proof.
  intros Hne. unfold is_mean.
  assert (Hn : INR (List.length xs) <> 0).
  { apply not_0_INR. destruct xs; [congruence | discriminate]. }
  unfold Rdiv. rewrite Rmult_assoc, Rinv_l by assumption. lra.
Qed.

Lemma std_is_sample_std (xs : list R) :
  (2 <= List.length xs)%nat ->
  is_sample_std (sqrt (sample_variance xs)) xs.
Proof.
  intros Hn. unfold is_sample_std.
  exists (Pandas.sum xs / INR (List.length xs)).
  assert (Hne : xs <> []) by (destruct xs; [simpl in Hn; lia | discriminate]).
  split; [now apply mean_is_mean|].
  assert (Hd : 0 < INR (List.length xs) - 1).
  { apply le_INR in Hn. simpl in Hn. lra. }
  set (avg := Pandas.sum xs / INR (List.length xs)).
  assert (Hv : 0 <= sample_variance xs).
  { unfold sample_variance. fold avg.
    apply Rmult_le_pos; [apply sum_squares_nonneg|].
    left. now apply Rinv_0_lt_compat. }
  split; [apply sqrt_pos|].
  rewrite sqrt_sqrt by assumption.
  unfold sample_variance. fold avg.
  unfold Rdiv. rewrite Rmult_assoc, Rinv_l by lra.
  rewrite Rmult_1_r. f_equal. apply map_ext. intros x. ring.
Qed.

Lemma latency_fields (df : DataFrame) (language : option string)
    (td : pyfloat * pyfloat) :
  successes df <> [] ->
  let m := latency_metrics df language td in
  let lat := latencies df in
  avg_latency m = Fin (Pandas.sum lat / INR (List.length lat))
  /\ (exists x xs, lat = x :: xs
                   /\ min_latency m = Fin (least x xs)
                   /\ max_latency m = Fin (greatest x xs))
  /\ std_latency m
     = (if (List.length lat <=? 1)%nat then NaN
        else Fin (sqrt (sample_variance lat)))
  /\ p95_latency m = Fin (interpolate 95 100 (Pandas.sort_values lat))
  /\ p99_latency m = Fin (interpolate 99 100 (Pandas.sort_values lat)).
Proof.
  intros Hs m lat. subst m lat.
  unfold latency_metrics, latencies.
  cbn [avg_latency min_latency max_latency std_latency p95_latency
       p99_latency].
  unfold Pandas.mean, Pandas.min, Pandas.max, Pandas.std.
  rewrite !dropna_Fin, !quantile_Fin by assumption.
  destruct (successes df) as [|r rs]; [congruence|].
  repeat split.
  exists (duration_ms r), (map duration_ms rs). repeat split.
Qed.

End LatencyFields.

(** C4.  For a store with a successful record, the latency statistics of
    the returned summary are those of the [duration_ms] values of the
    successful records alone: [avg] is their arithmetic mean, [min] and
    [max] their least and greatest value, [std] their sample standard
    deviation with denominator N-1 (NaN for a single value), [p95] and
    [p99] the linear interpolation between their order statistics.  On
    Scenario A (ten records, eight successful with latencies 10, 12, 11,
    13, 12, 14, 11, 100, no timestamps, a nominal 30 seconds) the
    summary has [success_rate = 80], [throughput = 8/30],
    [avg_latency = 22.875] and [max_latency = 100]. *)
Theorem latency_statistics :
  (forall (config_yaml : Yaml.source) (df : DataFrame)
          (language : option string) (m : RunMetrics),
      DashboardGenerator.calculate_detailed_metrics config_yaml df language
      = Py.Ok (Some m) ->
      successes df <> [] ->
      let lat := latencies df in
      (exists a, avg_latency m = Py.Fin a /\ is_mean a lat)
      /\ (exists v, min_latency m = Py.Fin v /\ is_least v lat)
      /\ (exists v, max_latency m = Py.Fin v /\ is_greatest v lat)
      /\ (List.length lat = 1%nat -> std_latency m = Py.NaN)
      /\ ((2 <= List.length lat)%nat ->
          exists s, std_latency m = Py.Fin s /\ is_sample_std s lat)
      /\ (exists s, order_statistics s lat
                    /\ p95_latency m = Py.Fin (interpolate 95 100 s)
                    /\ p99_latency m = Py.Fin (interpolate 99 100 s)))
  /\ (exists m,
        DashboardGenerator.calculate_detailed_metrics (config_with 30000)
          scenario_A (Some "java"%string) = Py.Ok (Some m)
        /\ total_requests m = 10%nat
        /\ List.length (successes scenario_A) = 8%nat
        /\ success_rate m = Py.Fin 80
        /\ throughput m = Py.Fin (8 / 30)
        /\ avg_latency m = Py.Fin 22.875
        /\ max_latency m = Py.Fin 100).
Proof.
  split.
  - intros config_yaml df language m Hm Hs lat.
    destruct (calculate_inv _ _ _ _ Hm Hs) as [td ->].
    destruct (latency_fields df language td Hs)
      as (Havg & (x & xs & Hlat & Hmin & Hmax) & Hstd & H95 & H99).
    fold lat in Havg, Hlat, Hstd, H95, H99.
    assert (Hne : lat <> []) by (rewrite Hlat; discriminate).
    split; [eexists; split; [exact Havg | now apply mean_is_mean]|].
    split; [eexists; split; [exact Hmin | rewrite Hlat; apply least_spec]|].
    split;
      [eexists; split; [exact Hmax | rewrite Hlat; apply greatest_spec]|].
    split; [intros H1; rewrite Hstd, H1; reflexivity|].
    split.
    + intros H2. eexists. split; [|now apply std_is_sample_std].
      rewrite Hstd.
      replace (List.length lat <=? 1)%nat with false; [reflexivity|].
      symmetry. apply Nat.leb_gt. lia.
    + exists (Pandas.sort_values lat).
      split; [apply sort_values_spec|]. now split.
  - assert (Hnom : nominal_duration_s
                     (Some {| Yaml.test :=
                                Some {| Yaml.duration_ms := Some 30000 |} |})
                   = 30)
      by (unfold nominal_duration_s; simpl; lra).
    eexists. split.
    { rewrite (calculate_nonempty (config_with 30000) scenario_A _ _ eq_refl)
        by discriminate.
      rewrite Hnom, throughput_step_nominal; [reflexivity | now left | lra]. }
    split; [reflexivity|]. split; [reflexivity|].
    destruct (latency_fields scenario_A (Some "java"%string)
                (Py.Fin (INR (List.length (successes scenario_A)) / 30),
                 Py.Fin 30) ltac:(discriminate))
      as (Havg & (x & xs & Hlat & _ & Hmax) & _).
    split; [|split; [|split]].
    + cbn [success_rate latency_metrics].
      change (List.length (rows scenario_A)) with 10%nat.
      change (List.length (successes scenario_A)) with 8%nat.
      cbn [Nat.ltb Nat.leb]. f_equal. rewrite !INR_IZR_INZ. simpl. lra.
    + cbn [throughput latency_metrics fst].
      change (List.length (successes scenario_A)) with 8%nat.
      f_equal. rewrite !INR_IZR_INZ. simpl. lra.
    + rewrite Havg. f_equal.
      change (List.length (latencies scenario_A)) with 8%nat.
      rewrite !INR_IZR_INZ. unfold latencies. simpl. lra.
    + rewrite Hmax. injection Hlat as <- <-. f_equal.
      unfold greatest. simpl. unfold Rmax.
      repeat match goal with
             | |- context [Rle_dec ?a ?b] => destruct (Rle_dec a b)
             end; lra.
Qed.

Lemma timed_pair_summary :
  exists m,
    DashboardGenerator.calculate_detailed_metrics no_config timed_pair None
    = Py.Ok (Some m).
Proof.
  rewrite (calculate_nonempty no_config timed_pair None None eq_refl)
    by discriminate.
  rewrite throughput_step_timestamps;
    [now eexists | reflexivity | simpl; lia | discriminate].
Qed.

(** On [timed_pair], a store of two successful records. *)
Lemma latency_statistics_timed_pair :
  exists m,
    DashboardGenerator.calculate_detailed_metrics no_config timed_pair None
    = Py.Ok (Some m)
    /\ successes timed_pair <> []
    /\ let lat := latencies timed_pair in
       (exists a, avg_latency m = Py.Fin a /\ is_mean a lat)
       /\ (exists v, min_latency m = Py.Fin v /\ is_least v lat)
       /\ (exists v, max_latency m = Py.Fin v /\ is_greatest v lat)
       /\ (List.length lat = 1%nat -> std_latency m = Py.NaN)
       /\ ((2 <= List.length lat)%nat ->
           exists s, std_latency m = Py.Fin s /\ is_sample_std s lat)
       /\ (exists s, order_statistics s lat
                     /\ p95_latency m = Py.Fin (interpolate 95 100 s)
                     /\ p99_latency m = Py.Fin (interpolate 99 100 s)).
Proof.
  destruct timed_pair_summary as [m Hm].
  exists m. split; [exact Hm|]. split; [discriminate|].
  apply (proj1 latency_statistics no_config timed_pair None m Hm).
  discriminate.
Defined.

Section OrderingFacts.
Import Py.






End OrderingFacts.




(* ===================================================================== *)
(** ** The two copies of the routine *)
(* ===================================================================== *)

Section Copies.
Import Py.

(** The copy of [dashboard-generator.py], read branch by branch. *)
Lemma hyphen_cases (config_yaml : Yaml.source) (df : DataFrame) :
  DashboardGeneratorHyphen.calculate_detailed_metrics config_yaml df =
  if empty df then Ok None else
  config <- DashboardGeneratorHyphen.load_config config_yaml ;;
  match successes df with
  | [] => Ok (Some (zero_metrics (List.length (rows df))
                      (nominal_duration_s config) None))
  | _ :: _ =>
      td <- throughput_step df (nominal_duration_s config) ;;
      Ok (Some (latency_metrics df None td))
  end.
Proof.
  unfold DashboardGeneratorHyphen.calculate_detailed_metrics.
  destruct (empty df); [reflexivity|].
  destruct (DashboardGeneratorHyphen.load_config config_yaml) as [config|e];
    [|reflexivity].
  cbn [bind]. unfold throughput_step, successes, nominal_duration_s.
  destruct (filter success (rows df)) as [|r rs] eqn:Hs; [reflexivity|].
  match goal with
  | |- bind ?c _ = _ => destruct c as [[t d]|e]
  end; [|reflexivity].
  cbn [bind]. unfold latency_metrics, successes. rewrite Hs. reflexivity.
Qed.

Lemma load_config_same (config_yaml : Yaml.source) :
  (forall e, config_yaml = Raise e -> e = FileNotFoundError) ->
  DashboardGenerator.load_config config_yaml
  = DashboardGeneratorHyphen.load_config config_yaml.
Proof.
  intros H. destruct config_yaml as [c|e]; [reflexivity|].
  rewrite (H e eq_refl). reflexivity.
Qed.

Lemma copies_agree_loaded (config_yaml : Yaml.source) (df : DataFrame)
    (language : option string) :
  DashboardGenerator.load_config config_yaml
  = DashboardGeneratorHyphen.load_config config_yaml ->
  agree
    (DashboardGenerator.calculate_detailed_metrics config_yaml df language)
    (DashboardGeneratorHyphen.calculate_detailed_metrics config_yaml df).
Proof.
  intros Hload. rewrite calculate_cases, hyphen_cases, Hload.
  destruct (empty df); [exact I|].
  destruct (DashboardGeneratorHyphen.load_config config_yaml) as [config|e];
    [|reflexivity].
  cbn [bind].
  destruct (successes df); [reflexivity|].
  destruct (throughput_step df (nominal_duration_s config)) as [td|e];
    reflexivity.
Qed.

End Copies.

(** C10, as worded, fails: when [config.yaml] exists but does not parse,
    [load_config] of [dashboard_generator.py] lets the exception through
    (it catches [FileNotFoundError] only), whereas the one of
    [dashboard-generator.py] catches it and the routine goes on with the
    default duration. *)
Lemma copies_agree_counterexample : ~ copies_agree_as_stated.
Proof.
  intros H.
  specialize (H (Py.Raise Py.YAMLError) lone_success None).
  rewrite calculate_cases, hyphen_cases in H.
  change (empty lone_success) with false in H. cbv iota in H.
  change (DashboardGenerator.load_config (Py.Raise Py.YAMLError))
    with (@Py.Raise (option Yaml.Config) Py.YAMLError) in H.
  change (DashboardGeneratorHyphen.load_config (Py.Raise Py.YAMLError))
    with (@Py.Ok (option Yaml.Config) None) in H.
  cbn [Py.bind] in H.
  change (successes lone_success) with [succeeded 5 None None] in H.
  cbv iota in H.
  rewrite throughput_step_nominal in H;
    [exact H | now left | unfold nominal_duration_s; simpl; lra].
Qed.

(** C10, amended.  Whenever [config.yaml] is absent or loads, the two
    copies agree: both return absent, or both return a summary with the
    same [total_requests], [success_rate], latency statistics,
    [throughput] and [test_duration_s], or both raise the same
    exception; only the copy of [dashboard_generator.py] tags its
    summary with the language. *)
Theorem copies_agree (config_yaml : Yaml.source) (df : DataFrame)
    (lang : option string) :
  (forall e, config_yaml = Py.Raise e -> e = Py.FileNotFoundError) ->
  agree
    (DashboardGenerator.calculate_detailed_metrics config_yaml df lang)
    (DashboardGeneratorHyphen.calculate_detailed_metrics config_yaml df)
  /\ (forall m,
        DashboardGenerator.calculate_detailed_metrics config_yaml df lang
        = Py.Ok (Some m) ->
        language m = lang)
  /\ (forall m,
        DashboardGeneratorHyphen.calculate_detailed_metrics config_yaml df
        = Py.Ok (Some m) ->
        language m = None).
Proof.
  intros Hcfg. split; [|split].
  - apply copies_agree_loaded, load_config_same, Hcfg.
  - intros m Hm. rewrite calculate_cases in Hm.
    destruct (empty df); [discriminate|].
    destruct (DashboardGenerator.load_config config_yaml) as [config|e];
      [|discriminate].
    cbn [Py.bind] in Hm.
    destruct (successes df).
    + injection Hm as <-. reflexivity.
    + destruct (throughput_step df (nominal_duration_s config)) as [td|e];
        [|discriminate].
      injection Hm as <-. reflexivity.
  - intros m Hm. rewrite hyphen_cases in Hm.
    destruct (empty df); [discriminate|].
    destruct (DashboardGeneratorHyphen.load_config config_yaml)
      as [config|e]; [|discriminate].
    cbn [Py.bind] in Hm.
    destruct (successes df).
    + injection Hm as <-. reflexivity.
    + destruct (throughput_step df (nominal_duration_s config)) as [td|e];
        [|discriminate].
      injection Hm as <-. reflexivity.
Qed.

(** On Scenario A with the configuration file absent. *)
Lemma copies_agree_scenario_A :
  agree
    (DashboardGenerator.calculate_detailed_metrics no_config scenario_A
       (Some "java"%string))
    (DashboardGeneratorHyphen.calculate_detailed_metrics no_config
       scenario_A)
  /\ (forall m,
        DashboardGenerator.calculate_detailed_metrics no_config scenario_A
          (Some "java"%string) = Py.Ok (Some m) ->
        language m = Some "java"%string)
  /\ (forall m,
        DashboardGeneratorHyphen.calculate_detailed_metrics no_config
          scenario_A = Py.Ok (Some m) ->
        language m = None).
Proof.
  apply (copies_agree no_config scenario_A (Some "java"%string)).
  intros e He. injection He as <-. reflexivity.
Defined.


(* ===================================================================== *)
(** ** The cross-run aggregator *)
(* ===================================================================== *)

Section AggregatorFacts.
Import Py.


Lemma std_alt (s : Pandas.Series) :
  Pandas.std s
  = if (List.length (Pandas.dropna s) <=? 1)%nat then NaN
    else Fin (sqrt (sample_variance (Pandas.dropna s))).
Proof. reflexivity. Qed.










End AggregatorFacts.

Section AggregatorSingle.
Import Py.




(** Scenario E: the mean of 10 and 20 is 15, their sample standard
    deviation is the root of 50, about 7.07. *)
Lemma scenario_E_aggregate :
  Pandas.mean (map avg_latency scenario_E) = Fin 15
  /\ Pandas.std (map avg_latency scenario_E) = Fin (sqrt 50).
Proof.
  split.
  - unfold Pandas.mean. simpl. f_equal. lra.
  - rewrite std_alt. simpl. do 2 f_equal.
    unfold sample_variance. simpl. field.
Qed.

End AggregatorSingle.






(* ===================================================================== *)
(** ** Runs without a successful record *)
(* ===================================================================== *)

Section ZeroRuns.
Import Py.

Lemma dict_get_set {V : Type} (k : string) (v : V) (d : dict V) :
  dict_get k (dict_set k v d) = Some v.
Proof.
  induction d as [|[k' v'] d IH]; simpl.
  - now rewrite String.eqb_refl.
  - destruct (String.eqb k k') eqn:E; simpl.
    + now rewrite String.eqb_refl.
    + now rewrite E.
Qed.




End ZeroRuns.




(* ===================================================================== *)
(** ** The result set resolver *)
(* ===================================================================== *)

(** C8, as worded, fails: with an empty [raw/] directory the label is
    "unknown", not absent. *)
Lemma resolver_counterexample : ~ resolver_as_stated.
Proof.
  intros H. specialize (H empty_raw). vm_compute in H. discriminate.
Qed.

(** A partial set is accepted as well: one Java file hides a complete
    set of Go files. *)
Lemma resolver_partial_set :
  resolved (DashboardGenerator.auto_detect_result_files partial_java)
  = ([("operational", "operational-java.jsonl")], Some "java")%string
  /\ first_fully_present partial_java conventions
     = ([("operational", "operational-go.jsonl");
         ("enterprise", "enterprise-go.jsonl")], Some "go")%string.
Proof. split; vm_compute; reflexivity. Qed.

(** C8, amended.  The resolver returns a mapping and a label for every
    run directory, whatever files are missing.  Without [raw/] the
    mapping is empty and the label absent.  Otherwise the conventions
    are tried in priority order, Java then Go, and the first one with at
    least one present non-empty file gives its present files and its
    label; when neither has one, the present files of the legacy
    convention are returned with the label "unknown", also when that
    mapping is empty.  The keys of the mapping are "operational" and
    "enterprise". *)
Theorem resolver_priority (run_dir : RunDir) :
  DashboardGenerator.auto_detect_result_files run_dir
  = resolve_amended run_dir
  /\ forall k info,
       In (k, info)
          (fst (DashboardGenerator.auto_detect_result_files run_dir)) ->
       k = "operational"%string \/ k = "enterprise"%string.
Proof.
  assert (Heq : DashboardGenerator.auto_detect_result_files run_dir
                = resolve_amended run_dir).
  { unfold DashboardGenerator.auto_detect_result_files, resolve_amended.
    destruct (raw_exists run_dir); [|reflexivity].
    cbn [negb]. cbv iota.
    unfold DashboardGenerator.detect_language, DashboardGenerator.patterns,
      DashboardGenerator.legacy_patterns, DashboardGenerator.record_legacy,
      first_present, conventions, present_entries.
    cbn [filter fold_left snd fst map].
    remember (DashboardGenerator.exists_nonempty run_dir) as present.
    destruct (present "operational-java.jsonl"%string),
             (present "enterprise-java.jsonl"%string),
             (present "operational-go.jsonl"%string),
             (present "enterprise-go.jsonl"%string),
             (present "operational.jsonl"%string),
             (present "enterprise.jsonl"%string);
      reflexivity. }
  split; [exact Heq|].
  rewrite Heq. unfold resolve_amended.
  destruct (raw_exists run_dir); [|intros k info []].
  unfold first_present, conventions, present_entries.
  cbn [filter snd fst map].
  intros k info.
  remember (DashboardGenerator.exists_nonempty run_dir) as present.
  destruct (present "operational-java.jsonl"%string),
           (present "enterprise-java.jsonl"%string),
           (present "operational-go.jsonl"%string),
           (present "enterprise-go.jsonl"%string),
           (present "operational.jsonl"%string),
           (present "enterprise.jsonl"%string);
    cbn [fst In map];
    intros Hin;
    repeat (destruct Hin as [Hin | Hin];
            [injection Hin as <- _; tauto|]);
    contradiction.
Qed.

(* ===================================================================== *)
(** ** Resolved files and the loader *)
(* ===================================================================== *)

Section ResolverFacts.
Import Py.

Lemma auto_detect_amended (run_dir : RunDir) :
  DashboardGenerator.auto_detect_result_files run_dir
  = resolve_amended run_dir.
Proof.
  unfold DashboardGenerator.auto_detect_result_files, resolve_amended.
  destruct (raw_exists run_dir); [|reflexivity].
  cbn [negb]. cbv iota.
  unfold DashboardGenerator.detect_language, DashboardGenerator.patterns,
    DashboardGenerator.legacy_patterns, DashboardGenerator.record_legacy,
    first_present, conventions, present_entries.
  cbn [filter fold_left snd fst map].
  remember (DashboardGenerator.exists_nonempty run_dir) as present.
  destruct (present "operational-java.jsonl"%string),
           (present "enterprise-java.jsonl"%string),
           (present "operational-go.jsonl"%string),
           (present "enterprise-go.jsonl"%string),
           (present "operational.jsonl"%string),
           (present "enterprise.jsonl"%string);
    reflexivity.
Qed.

(** What an entry of a convention looks like. *)
Lemma present_entries_In (run_dir : RunDir) (label : string)
    (files : list (string * string)) (k : string) (info : FileInfo.t) :
  In (k, info) (present_entries run_dir label files) ->
  In (k, FileInfo.path info) files
  /\ DashboardGenerator.exists_nonempty run_dir (FileInfo.path info) = true
  /\ FileInfo.sdk_type info = k
  /\ FileInfo.language info = label.
Proof.
  unfold present_entries. intros Hin.
  apply in_map_iff in Hin. destruct Hin as ([k' f] & Heq & Hin).
  apply filter_In in Hin. destruct Hin as [Hin Hp].
  injection Heq as <- <-. simpl in *. repeat split; assumption.
Qed.

(** The resolution is the list of present entries of one convention. *)
Lemma resolution_convention (run_dir : RunDir) :
  fst (resolve_amended run_dir) = []
  \/ exists label files,
       In (label, files) conventions
       /\ resolve_amended run_dir
          = (present_entries run_dir label files, Some label).
Proof.
  unfold resolve_amended. destruct (raw_exists run_dir); [|now left].
  unfold first_present, conventions.
  destruct (present_entries run_dir "java" _) eqn:Ej.
  - destruct (present_entries run_dir "go" _) eqn:Eg.
    + right. eexists _, _. split; [|reflexivity]. simpl. tauto.
    + right. eexists _, _. split; [|rewrite <- Eg; reflexivity].
      simpl. tauto.
  - right. eexists _, _. split; [|rewrite <- Ej; reflexivity]. simpl. tauto.
Qed.

Lemma present_entries_NoDup (run_dir : RunDir) (label : string)
    (files : list (string * string)) :
  NoDup (map fst files) ->
  NoDup (map fst (present_entries run_dir label files)).
Proof.
  unfold present_entries. rewrite map_map. cbn [fst].
  induction files as [|[k f] l IH]; intros Hnd; [constructor|].
  inversion Hnd as [|? ? Hnotin Hnd']; subst. cbn [filter snd].
  destruct (DashboardGenerator.exists_nonempty run_dir f).
  - cbn [map fst]. constructor; [|now apply IH].
    intros Hin. apply Hnotin. apply in_map_iff in Hin.
    destruct Hin as (x & Hx & Hin). apply filter_In in Hin.
    apply in_map_iff. exists x. tauto.
  - now apply IH.
Qed.

Lemma conventions_NoDup (lab : string) (named : list (string * string)) :
  In (lab, named) conventions -> NoDup (map fst named).
Proof.
  unfold conventions. simpl. intros Hc.
  destruct Hc as [Hc | [Hc | [Hc | []]]]; injection Hc as <- <-;
    simpl; repeat constructor; simpl; intuition discriminate.
Qed.

Lemma exists_nonempty_size (run_dir : RunDir) (name : string) :
  DashboardGenerator.exists_nonempty run_dir name = true ->
  exists n, getsize run_dir name = Some n /\ (0 < n)%nat.
Proof.
  unfold DashboardGenerator.exists_nonempty.
  destruct (getsize run_dir name) as [n|]; [|discriminate].
  intros H. apply Nat.ltb_lt in H. now exists n.
Qed.

End ResolverFacts.

(** X1.  Every file that the resolver maps exists and is not empty, so
    that loading it gives what [pd.read_json] parses from it, never the
    empty frame of a missing file. *)
Theorem resolved_files_are_loaded (run_dir : RunDir) (k : string)
    (info : FileInfo.t) :
  In (k, info) (fst (DashboardGenerator.auto_detect_result_files run_dir)) ->
  (exists n, getsize run_dir (FileInfo.path info) = Some n /\ (0 < n)%nat)
  /\ DashboardGenerator.load_data run_dir (FileInfo.path info)
     = read_json run_dir (FileInfo.path info).
Proof.
  rewrite auto_detect_amended. intros Hin.
  assert (Hp : DashboardGenerator.exists_nonempty run_dir (FileInfo.path info)
               = true).
  { destruct (resolution_convention run_dir) as [He | (label & files & _ & He)].
    - rewrite He in Hin. contradiction.
    - rewrite He in Hin. now apply present_entries_In in Hin. }
  destruct (exists_nonempty_size _ _ Hp) as (n & Hn & Hpos).
  split; [now exists n|].
  unfold DashboardGenerator.load_data. rewrite Hn.
  replace (n =? 0)%nat with false; [reflexivity|].
  symmetry. apply Nat.eqb_neq. lia.
Qed.

(** On [failed_run], whose only file is [operational.jsonl]. *)
Lemma resolved_files_are_loaded_failed_run :
  (exists n, getsize failed_run (FileInfo.path failed_run_file) = Some n
             /\ (0 < n)%nat)
  /\ DashboardGenerator.load_data failed_run (FileInfo.path failed_run_file)
     = read_json failed_run (FileInfo.path failed_run_file).
Proof.
  apply (resolved_files_are_loaded failed_run "operational"%string
           failed_run_file).
  vm_compute. left. reflexivity.
Defined.

(** X2.  When the resolver returns files, its label is "java", "go" or
    "unknown"; every entry carries that label as its language and its
    own key as [sdk_type], names the file of its convention, and no
    variant is mapped twice. *)
Theorem resolved_entries_consistent (run_dir : RunDir)
    (files : dict FileInfo.t) (label : option string) :
  DashboardGenerator.auto_detect_result_files run_dir = (files, label) ->
  files <> [] ->
  exists lab named,
    label = Some lab
    /\ In (lab, named) conventions
    /\ (forall k info, In (k, info) files ->
          FileInfo.sdk_type info = k
          /\ FileInfo.language info = lab
          /\ In (k, FileInfo.path info) named)
    /\ NoDup (map fst files).
Proof.
  rewrite auto_detect_amended. intros Heq Hne.
  destruct (resolution_convention run_dir) as [He | (lab & named & Hc & He)].
  - rewrite Heq in He. contradiction.
  - rewrite Heq in He. injection He as -> ->.
    exists lab, named. split; [reflexivity|]. split; [exact Hc|]. split.
    + intros k info Hin. apply present_entries_In in Hin. tauto.
    + apply present_entries_NoDup. now apply (conventions_NoDup lab).
Qed.

(** On [partial_java], resolved to its single Java file. *)
Lemma resolved_entries_consistent_partial_java :
  exists lab named,
    Some "java"%string = Some lab
    /\ In (lab, named) conventions
    /\ (forall k info,
          In (k, info)
             (fst (DashboardGenerator.auto_detect_result_files partial_java)) ->
          FileInfo.sdk_type info = k
          /\ FileInfo.language info = lab
          /\ In (k, FileInfo.path info) named)
    /\ NoDup
         (map fst
            (fst (DashboardGenerator.auto_detect_result_files partial_java))).
Proof.
  apply (resolved_entries_consistent partial_java
           (fst (DashboardGenerator.auto_detect_result_files partial_java))
           (Some "java"%string)).
  - vm_compute. reflexivity.
  - vm_compute. discriminate.
Defined.


(* ===================================================================== *)
(** ** The loop over the runs *)
(* ===================================================================== *)

Section LoopFacts.
Import Py.

Lemma dict_get_set_other {V : Type} (k k' : string) (v : V) (d : dict V) :
  k <> k' -> dict_get k (dict_set k' v d) = dict_get k d.
Proof.
  intros Hne. induction d as [|[k0 v0] d IH]; simpl.
  - destruct (String.eqb k k') eqn:E; [|reflexivity].
    apply String.eqb_eq in E. contradiction.
  - destruct (String.eqb k' k0) eqn:E0; simpl.
    + apply String.eqb_eq in E0. subst k0.
      destruct (String.eqb k k') eqn:E; [|reflexivity].
      apply String.eqb_eq in E. contradiction.
    + destruct (String.eqb k k0); [reflexivity | exact IH].
Qed.


(** The body of the loop over the files, read branch by branch. *)
Lemma process_file_cases (config_yaml : Yaml.source) (run_dir : RunDir)
    (lang : option string) (all_metrics : dict (list RunMetrics))
    (sdk_type : string) (info : FileInfo.t) :
  MultiRun.process_file config_yaml run_dir lang all_metrics (sdk_type, info)
  = let df := DashboardGenerator.load_data run_dir (FileInfo.path info) in
    if empty df then Ok all_metrics
    else
      match DashboardGenerator.calculate_detailed_metrics config_yaml df lang
      with
      | Raise e => Raise e
      | Ok None => Ok all_metrics
      | Ok (Some m) =>
          match dict_get sdk_type all_metrics with
          | Some l => Ok (dict_set sdk_type (l ++ [m]) all_metrics)
          | None => Raise KeyError
          end
      end.
Proof.
  unfold MultiRun.process_file, MultiRun.append_metrics. cbv zeta.
  destruct (empty _); [reflexivity|]. cbn [negb].
  destruct (DashboardGenerator.calculate_detailed_metrics _ _ _) as [[m|]|e];
    reflexivity.
Qed.

Lemma resolved_keys (run_dir : RunDir) (k : string) (info : FileInfo.t) :
  In (k, info) (fst (DashboardGenerator.auto_detect_result_files run_dir)) ->
  k = "operational"%string \/ k = "enterprise"%string.
Proof.
  rewrite auto_detect_amended. intros Hin.
  destruct (resolution_convention run_dir) as [He | (lab & named & Hc & He)].
  - rewrite He in Hin. contradiction.
  - rewrite He in Hin. apply present_entries_In in Hin.
    destruct Hin as (Hin & _). unfold conventions in Hc. simpl in Hc.
    destruct Hc as [Hc | [Hc | [Hc | []]]]; injection Hc as <- <-;
      simpl in Hin;
      destruct Hin as [Hin | [Hin | []]]; injection Hin as <- _; tauto.
Qed.

Lemma resolved_NoDup (run_dir : RunDir) :
  NoDup (map fst
           (fst (DashboardGenerator.auto_detect_result_files run_dir))).
Proof.
  rewrite auto_detect_amended.
  destruct (resolution_convention run_dir) as [He | (lab & named & Hc & He)].
  - rewrite He. constructor.
  - rewrite He. apply present_entries_NoDup.
    now apply (conventions_NoDup lab).
Qed.





Lemma insert_run_perm (d : RunDir) (l : list RunDir) :
  Permutation (MultiRun.insert_run d l) (d :: l).
Proof.
  induction l as [|e l IH]; simpl; [reflexivity|].
  destruct (run_number e <=? run_number d)%nat; [|reflexivity].
  rewrite IH. apply perm_swap.
Qed.

Lemma sorted_runs_perm (run_dirs : list RunDir) :
  Permutation (MultiRun.sorted_runs run_dirs) run_dirs.
Proof.
  unfold MultiRun.sorted_runs.
  assert (H : forall acc,
            Permutation
              (fold_left (fun acc d => MultiRun.insert_run d acc) run_dirs acc)
              (acc ++ run_dirs)).
  { induction run_dirs as [|d l IH]; intros acc; simpl.
    - now rewrite app_nil_r.
    - rewrite IH, insert_run_perm. apply Permutation_middle. }
  apply (H []).
Qed.


End LoopFacts.



Section CountFacts.
Import Py.

Lemma data_points_set_same (v : string) (l : list RunMetrics)
    (all_metrics : dict (list RunMetrics)) :
  data_points v (dict_set v l all_metrics) = List.length l.
Proof. unfold data_points. now rewrite dict_get_set. Qed.

Lemma data_points_set_other (v k : string) (l : list RunMetrics)
    (all_metrics : dict (list RunMetrics)) :
  v <> k ->
  data_points v (dict_set k l all_metrics) = data_points v all_metrics.
Proof. intros H. unfold data_points. now rewrite dict_get_set_other. Qed.

(** A file adds at most one summary, and only to its own variant. *)
Lemma process_file_points (config_yaml : Yaml.source) (run_dir : RunDir)
    (lang : option string) (all_metrics all_metrics' : dict (list RunMetrics))
    (sdk_type : string) (info : FileInfo.t) (v : string) :
  MultiRun.process_file config_yaml run_dir lang all_metrics (sdk_type, info)
  = Ok all_metrics' ->
  (v <> sdk_type -> data_points v all_metrics' = data_points v all_metrics)
  /\ (data_points v all_metrics' <= S (data_points v all_metrics))%nat.
Proof.
  rewrite process_file_cases. cbv zeta.
  destruct (empty _); [intros [= <-]; split; [reflexivity | lia]|].
  destruct (DashboardGenerator.calculate_detailed_metrics _ _ _) as [[m|]|e];
    [|intros [= <-]; split; [reflexivity | lia]|discriminate].
  destruct (dict_get sdk_type all_metrics) as [l|] eqn:Hget; [|discriminate].
  intros [= <-]. split.
  - intros Hne. now apply data_points_set_other.
  - destruct (string_dec v sdk_type) as [-> | Hne].
    + rewrite data_points_set_same. unfold data_points. rewrite Hget.
      rewrite length_app. simpl. lia.
    + rewrite data_points_set_other by assumption. lia.
Qed.

Lemma process_files_points (config_yaml : Yaml.source) (run_dir : RunDir)
    (lang : option string) (items : list (string * FileInfo.t)) (v : string) :
  NoDup (map fst items) ->
  forall all_metrics all_metrics',
    MultiRun.process_files config_yaml run_dir lang all_metrics items
    = Ok all_metrics' ->
    (~ In v (map fst items) ->
     data_points v all_metrics' = data_points v all_metrics)
    /\ (data_points v all_metrics' <= S (data_points v all_metrics))%nat.
Proof.
  induction items as [|[k info] items IH]; intros Hnd all_metrics all_metrics'.
  - cbn. intros [= <-]. split; [reflexivity | lia].
  - cbn [MultiRun.process_files].
    destruct (MultiRun.process_file _ _ _ _ _) as [all1|e] eqn:Hf;
      [|discriminate].
    cbn [bind]. intros Hrest.
    inversion Hnd as [|? ? Hnotin Hnd']; subst.
    destruct (process_file_points _ _ _ _ _ _ _ v Hf) as [Hsame Hle].
    destruct (IH Hnd' all1 all_metrics' Hrest) as [Hsame' Hle'].
    split.
    + intros Hv. simpl in Hv.
      rewrite Hsame' by tauto. apply Hsame. intros ->. tauto.
    + destruct (string_dec v k) as [-> | Hne].
      * rewrite Hsame' by exact Hnotin. exact Hle.
      * rewrite Hsame in Hle' by assumption. exact Hle'.
Qed.

Lemma process_run_points (config_yaml : Yaml.source) (run_dir : RunDir)
    (all_metrics all_metrics' : dict (list RunMetrics)) (v : string) :
  MultiRun.process_run config_yaml all_metrics run_dir = Ok all_metrics' ->
  (data_points v all_metrics' <= S (data_points v all_metrics))%nat.
Proof.
  unfold MultiRun.process_run.
  pose proof (resolved_NoDup run_dir) as Hnd.
  destruct (DashboardGenerator.auto_detect_result_files run_dir)
    as [files lang].
  cbn [fst] in Hnd.
  destruct files as [|item files]; [intros [= <-]; lia|].
  intros Hf. now apply (process_files_points _ _ _ _ v Hnd _ _ Hf).
Qed.

Lemma process_runs_points (config_yaml : Yaml.source)
    (run_dirs : list RunDir) (v : string) :
  forall all_metrics all_metrics',
    MultiRun.process_runs config_yaml all_metrics run_dirs = Ok all_metrics' ->
    (data_points v all_metrics'
     <= data_points v all_metrics + List.length run_dirs)%nat.
Proof.
  induction run_dirs as [|d l IH]; intros all_metrics all_metrics'.
  - cbn. intros [= <-]. lia.
  - cbn [MultiRun.process_runs].
    destruct (MultiRun.process_run _ _ _) as [all1|e] eqn:Hr; [|discriminate].
    cbn [bind]. intros Hrest.
    pose proof (process_run_points _ _ _ _ v Hr).
    pose proof (IH _ _ Hrest). simpl. lia.
Qed.

(** Nothing is found in a run directory without [raw/] or without any
    non-empty file. *)
Lemma nothing_resolved (run_dir : RunDir) :
  raw_exists run_dir = false
  \/ (forall name, DashboardGenerator.exists_nonempty run_dir name = false) ->
  fst (DashboardGenerator.auto_detect_result_files run_dir) = [].
Proof.
  rewrite auto_detect_amended. unfold resolve_amended.
  intros [-> | Hnone]; [reflexivity|].
  destruct (raw_exists run_dir); [|reflexivity].
  unfold first_present, conventions, present_entries. cbn [filter snd].
  rewrite !Hnone. reflexivity.
Qed.

End CountFacts.

(** X5.  Each run contributes at most one summary per variant: after
    the loop over the runs, no variant holds more summaries than there
    are run directories. *)
Theorem data_points_bounded (config_yaml : Yaml.source)
    (run_dirs : list RunDir) (all_metrics : dict (list RunMetrics))
    (v : string) (l : list RunMetrics) :
  MultiRun.process_runs config_yaml MultiRun.all_metrics_init
    (MultiRun.sorted_runs run_dirs) = Py.Ok all_metrics ->
  dict_get v all_metrics = Some l ->
  (List.length l <= List.length run_dirs)%nat.
Proof.
  intros Hruns Hget.
  pose proof (process_runs_points _ _ v _ _ Hruns) as Hle.
  rewrite (Permutation_length (sorted_runs_perm run_dirs)) in Hle.
  unfold data_points in Hle. rewrite Hget in Hle.
  assert (Hinit : match dict_get v MultiRun.all_metrics_init with
                  | Some l0 => List.length l0
                  | None => 0%nat
                  end = 0%nat).
  { unfold MultiRun.all_metrics_init. simpl.
    destruct (String.eqb v "operational"); [reflexivity|].
    destruct (String.eqb v "enterprise"); reflexivity. }
  rewrite Hinit in Hle. exact Hle.
Qed.

(** On two runs, [failed_run] and [empty_raw]: one summary for two
    run directories. *)
Lemma data_points_bounded_two_runs :
  (List.length [zero_metrics 5 (nominal_duration_s None)
                  (Some "unknown"%string)]
   <= List.length [failed_run; empty_raw])%nat.
Proof.
  apply (data_points_bounded no_config [failed_run; empty_raw]
           [("operational"%string,
             [zero_metrics 5 (nominal_duration_s None)
                (Some "unknown"%string)]);
            ("enterprise"%string, [])]
           "operational"%string).
  - reflexivity.
  - reflexivity.
Defined.

(** X3.  A run directory without [raw/], or without any non-empty file,
    is skipped: the loop leaves [all_metrics] as it is and raises
    nothing, whatever the state of [config.yaml]. *)
Theorem run_without_files_is_skipped (config_yaml : Yaml.source)
    (all_metrics : dict (list RunMetrics)) (run_dir : RunDir) :
  raw_exists run_dir = false
  \/ (forall name, DashboardGenerator.exists_nonempty run_dir name = false) ->
  MultiRun.process_run config_yaml all_metrics run_dir = Py.Ok all_metrics.
Proof.
  intros H. unfold MultiRun.process_run.
  pose proof (nothing_resolved run_dir H) as Hn.
  destruct (DashboardGenerator.auto_detect_result_files run_dir)
    as [files lang].
  cbn [fst] in Hn. now rewrite Hn.
Qed.

(** On [empty_raw], with a configuration file that does not parse. *)
Lemma run_without_files_is_skipped_empty_raw :
  MultiRun.process_run (Py.Raise Py.YAMLError) MultiRun.all_metrics_init
    empty_raw = Py.Ok MultiRun.all_metrics_init.
Proof.
  apply (run_without_files_is_skipped (Py.Raise Py.YAMLError)
           MultiRun.all_metrics_init empty_raw).
  right. reflexivity.
Defined.


Section OrderFacts.
Import Py.

Lemma insert_run_ascending (d : RunDir) (l : list RunDir) :
  ascending l -> ascending (MultiRun.insert_run d l).
Proof.
  unfold ascending. induction l as [|e l IH]; intros Hs; simpl.
  - constructor; constructor.
  - inversion Hs as [|? ? Hs' Hall]; subst.
    destruct (run_number e <=? run_number d)%nat eqn:E.
    + apply Nat.leb_le in E. constructor; [now apply IH|].
      apply Forall_forall. intros x Hx.
      apply (Permutation_in _ (insert_run_perm d l)) in Hx.
      destruct Hx as [<- | Hx]; [exact E|].
      rewrite Forall_forall in Hall. now apply Hall.
    + apply Nat.leb_gt in E. constructor; [exact Hs|].
      constructor; [lia|].
      eapply Forall_impl; [|exact Hall]. intros x Hx. simpl in Hx. lia.
Qed.

Lemma sorted_runs_ascending (run_dirs : list RunDir) :
  ascending (MultiRun.sorted_runs run_dirs).
Proof.
  unfold MultiRun.sorted_runs.
  assert (H : forall acc, ascending acc ->
            ascending
              (fold_left (fun acc d => MultiRun.insert_run d acc)
                 run_dirs acc)).
  { induction run_dirs as [|d l IH]; intros acc Hacc; simpl; [exact Hacc|].
    apply IH. now apply insert_run_ascending. }
  apply H. constructor.
Qed.

Lemma same_number_same_run (l : list RunDir) (a b : RunDir) :
  NoDup (map run_number l) -> In a l -> In b l ->
  run_number a = run_number b -> a = b.
Proof.
  induction l as [|x l IH]; intros Hnd Ha Hb Heq; [contradiction|].
  simpl in Hnd. inversion Hnd as [|? ? Hnotin Hnd']; subst.
  destruct Ha as [-> | Ha], Hb as [-> | Hb].
  - reflexivity.
  - exfalso. apply Hnotin. rewrite Heq. now apply in_map.
  - exfalso. apply Hnotin. rewrite <- Heq. now apply in_map.
  - now apply IH.
Qed.

(** With distinct run numbers there is one ascending arrangement. *)
Lemma ascending_unique (l1 : list RunDir) :
  forall l2,
    ascending l1 -> ascending l2 -> Permutation l1 l2 ->
    NoDup (map run_number l1) -> l1 = l2.
Proof.
  unfold ascending.
  induction l1 as [|a t1 IH]; intros l2 Hs1 Hs2 Hp Hnd.
  - apply Permutation_nil in Hp. now subst.
  - destruct l2 as [|b t2];
      [apply Permutation_sym, Permutation_nil in Hp; discriminate|].
    inversion Hs1 as [|? ? Hs1' Hall1]; subst.
    inversion Hs2 as [|? ? Hs2' Hall2]; subst.
    rewrite Forall_forall in Hall1, Hall2.
    assert (Hab : a = b).
    { assert (Hb : In b (a :: t1))
        by (apply (Permutation_in _ (Permutation_sym Hp)); now left).
      assert (Ha : In a (b :: t2))
        by (apply (Permutation_in _ Hp); now left).
      apply (same_number_same_run (a :: t1)); [assumption | now left
                                                | assumption|].
      destruct Hb as [-> | Hb]; [reflexivity|].
      destruct Ha as [-> | Ha]; [reflexivity|].
      pose proof (Hall1 b Hb). pose proof (Hall2 a Ha). lia. }
    subst b. f_equal.
    apply IH; try assumption.
    + now apply Permutation_cons_inv in Hp.
    + simpl in Hnd. now inversion Hnd.
Qed.

Lemma sorted_runs_listing (l l' : list RunDir) :
  Permutation l l' -> NoDup (map run_number l) ->
  MultiRun.sorted_runs l = MultiRun.sorted_runs l'.
Proof.
  intros Hp Hnd. apply ascending_unique.
  - apply sorted_runs_ascending.
  - apply sorted_runs_ascending.
  - rewrite (sorted_runs_perm l), (sorted_runs_perm l'). exact Hp.
  - apply (Permutation_NoDup
             (Permutation_map run_number
                (Permutation_sym (sorted_runs_perm l)))).
    exact Hnd.
Qed.

End OrderFacts.


(** X7.  The outcome of the analysis does not depend on the order in
    which the run directories are listed, as long as their run numbers
    are distinct. *)
Theorem analysis_independent_of_listing (config_yaml : Yaml.source)
    (run_dirs run_dirs' : list RunDir) :
  Permutation run_dirs run_dirs' ->
  NoDup (map run_number run_dirs) ->
  MultiRun.analyze_multi_run config_yaml run_dirs
  = MultiRun.analyze_multi_run config_yaml run_dirs'.
Proof.
  intros Hp Hnd. unfold MultiRun.analyze_multi_run.
  rewrite (sorted_runs_listing _ _ Hp Hnd), (Permutation_length Hp).
  destruct run_dirs as [|d l], run_dirs' as [|d' l']; try reflexivity.
  apply Permutation_nil in Hp. discriminate.
Qed.

(** Three runs listed in two orders. *)
Lemma analysis_independent_of_listing_three_runs :
  MultiRun.analyze_multi_run no_config [tenth_run; failed_run; lone_run]
  = MultiRun.analyze_multi_run no_config [lone_run; tenth_run; failed_run].
Proof.
  apply (analysis_independent_of_listing no_config
           [tenth_run; failed_run; lone_run]
           [lone_run; tenth_run; failed_run]).
  - apply Permutation_sym. apply (Permutation_cons_app [tenth_run; failed_run] []).
    reflexivity.
  - simpl. repeat constructor; simpl; intuition discriminate.
Defined.


(* ===================================================================== *)
(** ** Console verdicts *)
(* ===================================================================== *)

Section VerdictFacts.
Import Py.

Lemma fltb_true (a b : pyfloat) :
  fltb a b = true -> exists x y, a = Fin x /\ b = Fin y /\ x < y.
Proof.
  unfold fltb, fgtb. destruct b as [|y], a as [|x]; try discriminate.
  destruct (Rlt_dec x y); [|discriminate]. intros _. now exists x, y.
Qed.

Lemma fltb_asym (a b : pyfloat) : fltb a b = true -> fltb b a = false.
Proof.
  intros H. destruct (fltb_true _ _ H) as (x & y & -> & -> & Hlt).
  unfold fltb, fgtb. destruct (Rlt_dec y x); [lra | reflexivity].
Qed.

Lemma fltb_irrefl (a : pyfloat) : fltb a a = false.
Proof.
  destruct (fltb a a) eqn:E; [|reflexivity].
  pose proof (fltb_asym _ _ E). congruence.
Qed.

Lemma fltb_margin (a b : pyfloat) :
  fltb a b = true -> exists d, fsub b a = Fin d /\ 0 < d.
Proof.
  intros H. destruct (fltb_true _ _ H) as (x & y & -> & -> & Hlt).
  exists (y - x). split; [reflexivity | lra].
Qed.

End VerdictFacts.

(** X8.  The comparison of [print_sdk_comparison_summary] favours
    neither SDK: with the two summaries exchanged, the same verdicts
    come out with the winners exchanged and the margins unchanged. *)
Theorem comparison_is_symmetric (o e : RunMetrics) :
  DashboardGenerator.comparison e o
  = map exchanged (DashboardGenerator.comparison o e).
Proof.
  unfold DashboardGenerator.comparison.
  change (Py.fgtb (throughput o) (throughput e))
    with (Py.fltb (throughput e) (throughput o)).
  change (Py.fgtb (throughput e) (throughput o))
    with (Py.fltb (throughput o) (throughput e)).
  destruct (Py.fltb (avg_latency e) (avg_latency o)) eqn:A1;
    [rewrite (fltb_asym _ _ A1)|];
    (destruct (Py.fltb (throughput e) (throughput o)) eqn:T1;
     [rewrite (fltb_asym _ _ T1)|]);
    (destruct (Py.fltb (p95_latency e) (p95_latency o)) eqn:P1;
     [rewrite (fltb_asym _ _ P1)|]);
    destruct (Py.fltb (avg_latency o) (avg_latency e));
    destruct (Py.fltb (throughput o) (throughput e));
    destruct (Py.fltb (p95_latency o) (p95_latency e));
    reflexivity.
Qed.

(** X9.  A verdict of [print_sdk_comparison_summary] that names a
    winner announces a margin that is a number and positive: never 0,
    never NaN. *)
Theorem announced_margins_are_positive
    (operational_metrics enterprise_metrics : option RunMetrics)
    (language : string) (l : Console.line) (d : Py.pyfloat) :
  In l (DashboardGenerator.print_sdk_comparison_summary operational_metrics
          enterprise_metrics language) ->
  margin l = Some d ->
  exists x, d = Py.Fin x /\ 0 < x.
Proof.
  unfold DashboardGenerator.print_sdk_comparison_summary.
  assert (Hcmp : forall o e, In l (DashboardGenerator.comparison o e) ->
                 margin l = Some d -> exists x, d = Py.Fin x /\ 0 < x).
  { intros o e. unfold DashboardGenerator.comparison.
    change (Py.fgtb (throughput e) (throughput o))
      with (Py.fltb (throughput o) (throughput e)).
    change (Py.fgtb (throughput o) (throughput e))
      with (Py.fltb (throughput e) (throughput o)).
    destruct (Py.fltb (avg_latency e) (avg_latency o)) eqn:A1;
      destruct (Py.fltb (avg_latency o) (avg_latency e)) eqn:A2;
      destruct (Py.fltb (throughput o) (throughput e)) eqn:T1;
      destruct (Py.fltb (throughput e) (throughput o)) eqn:T2;
      destruct (Py.fltb (p95_latency e) (p95_latency o)) eqn:P1;
      destruct (Py.fltb (p95_latency o) (p95_latency e)) eqn:P2;
      simpl; intros Hin Hm;
      repeat (destruct Hin as [<- | Hin]);
      try contradiction; try discriminate;
      injection Hm as <-;
      first [ exact (fltb_margin _ _ A1) | exact (fltb_margin _ _ A2)
            | exact (fltb_margin _ _ T1) | exact (fltb_margin _ _ T2)
            | exact (fltb_margin _ _ P1) | exact (fltb_margin _ _ P2) ]. }
  assert (Hplain : forall lines,
            (forall x, In x lines -> margin x = None) ->
            In l lines -> margin l = Some d -> False).
  { intros lines Hall Hin Hm. rewrite (Hall l Hin) in Hm. discriminate. }
  intros Hin Hm.
  destruct operational_metrics as [o|], enterprise_metrics as [e|].
  - remember (DashboardGenerator.comparison o e) as cmp eqn:Ecmp.
    rewrite !in_app_iff in Hin.
    destruct Hin as [Hin | [Hin | [Hin | [Hin | [Hin | Hin]]]]];
      try (exfalso; revert Hin Hm; apply Hplain; simpl;
           intros x Hx; repeat (destruct Hx as [<- | Hx]; [reflexivity|]);
           contradiction).
    subst cmp. exact (Hcmp o e Hin Hm).
  - exfalso. revert Hin Hm. apply Hplain. simpl.
    intros x Hx. repeat (destruct Hx as [<- | Hx]; [reflexivity|]).
    contradiction.
  - exfalso. revert Hin Hm. apply Hplain. simpl.
    intros x Hx. repeat (destruct Hx as [<- | Hx]; [reflexivity|]).
    contradiction.
  - exfalso. revert Hin Hm. apply Hplain. simpl.
    intros x Hx. repeat (destruct Hx as [<- | Hx]; [reflexivity|]).
    contradiction.
Qed.

(** On the summaries of Scenario E, with average latencies 10 and 20. *)
Lemma announced_margins_are_positive_scenario_E :
  exists x, Py.fsub (Py.Fin 20) (Py.Fin 10) = Py.Fin x /\ 0 < x.
Proof.
  apply (announced_margins_are_positive (Some (run_with_avg 10))
           (Some (run_with_avg 20)) "go"%string
           (Console.LowerLatency "Operational"%string
              (Py.fsub (Py.Fin 20) (Py.Fin 10)))).
  - unfold DashboardGenerator.print_sdk_comparison_summary.
    rewrite !in_app_iff. do 4 right. left.
    unfold DashboardGenerator.comparison. rewrite !in_app_iff.
    right. left. cbn [avg_latency run_with_avg].
    unfold Py.fltb, Py.fgtb.
    destruct (Rlt_dec 20 10); [lra|].
    destruct (Rlt_dec 10 20); [|lra].
    now left.
  - reflexivity.
Defined.

(** X10.  On two identical summaries, [print_sdk_comparison_summary]
    reports similar latency and throughput and no P95 verdict, whereas
    [print_comparison_summary] of [dashboard-generator.py] names the
    Operational SDK on all four counts: there a tie, or a NaN, goes to
    Operational. *)
Theorem verdicts_on_identical_summaries (m : RunMetrics) :
  DashboardGenerator.comparison m m
  = [ Console.ComparisonHeader; Console.SimilarLatency;
      Console.SimilarThroughput ]
  /\ DashboardGeneratorHyphen.analysis m m
     = [ Console.ComparisonHeader;
         Console.LowerLatency "Operational"
           (Py.fsub (avg_latency m) (avg_latency m));
         Console.BetterP95 "Operational"
           (Py.fsub (p95_latency m) (p95_latency m));
         Console.HigherThroughput "Operational"
           (Py.fsub (throughput m) (throughput m));
         Console.MoreConsistent "Operational" ].
Proof.
  unfold DashboardGenerator.comparison, DashboardGeneratorHyphen.analysis.
  change (Py.fgtb (throughput m) (throughput m))
    with (Py.fltb (throughput m) (throughput m)).
  rewrite !fltb_irrefl. split; reflexivity.
Qed.

(* ===================================================================== *)
(** ** Sampling of the time series *)
(* ===================================================================== *)

Section SamplingFacts.
Import Py.

Lemma every_from_length {A : Type} (step : nat) (l : list A) :
  (0 < step)%nat ->
  forall skip, (skip < step)%nat ->
  List.length (Pandas.every_from skip step l)
  = ((List.length l + (step - 1) - skip) / step)%nat.
Proof.
  intros Hstep. induction l as [|x t IH]; intros skip Hskip.
  - simpl. symmetry. apply Nat.div_small. lia.
  - destruct skip as [|k]; cbn [Pandas.every_from List.length].
    + rewrite IH by lia.
      assert (E : (S (List.length t) + (step - 1) - 0
                   = List.length t + (step - 1) - (step - 1) + 1 * step)%nat)
        by lia.
      rewrite E, Nat.div_add; lia.
    + rewrite IH by lia. reflexivity.
Qed.


(** The number of rows kept by [iloc[::n // size]] for [n > size]. *)
Lemma sample_count (n size : nat) :
  (0 < size)%nat -> (size < n)%nat ->
  let step := (n / size)%nat in
  (0 < step)%nat
  /\ (size <= (n + (step - 1) - 0) / step)%nat
  /\ ((n + (step - 1) - 0) / step <= 2 * size - 1)%nat.
Proof.
  intros Hsize Hn step.
  assert (Hstep : (0 < step)%nat).
  { apply Nat.div_str_pos. lia. }
  pose proof (Nat.div_mod_eq n size) as Hdm.
  pose proof (Nat.mod_upper_bound n size ltac:(lia)) as Hmod.
  fold step in Hdm.
  split; [exact Hstep|]. split.
  - apply Nat.div_le_lower_bound; [lia | nia].
  - apply Nat.lt_succ_r. apply Nat.Div0.div_lt_upper_bound. nia.
Qed.

End SamplingFacts.

Section SeriesShape.
Import Py.

Lemma iloc_step_pos {A : Type} (step : nat) (l : list A) :
  (0 < step)%nat ->
  Pandas.iloc_step step l = Ok (Pandas.every_from 0 step l).
Proof. destruct step; [lia | reflexivity]. Qed.

Lemma nonempty_successes (df : DataFrame) :
  successes df <> [] -> empty df = false.
Proof.
  intros Hs. apply empty_false. intros Hr. apply Hs.
  unfold successes. now rewrite Hr.
Qed.

Lemma nonempty_true {A : Type} (l : list A) :
  l <> [] -> Plot.nonempty l = true.
Proof. destruct l; [congruence | reflexivity]. Qed.

End SeriesShape.

(** X11.  In the chart of the performance over time of
    [create_sdk_comparison_dashboard], the line of a variant with a
    [start_time] column and two successful records or more has as many
    times as latencies; it holds every successful record up to 500 of
    them, and between 500 and 999 points beyond that, however many
    records there are.  The slice never has a zero step. *)
Theorem time_series_sampling (name : string) (df : DataFrame)
    (earliest_start : Py.pyfloat) :
  has_start_time_column df = true ->
  (2 <= List.length (successes df))%nat ->
  exists xs ys,
    DashboardGenerator.time_series name df earliest_start
    = Py.Ok [ (Plot.Scatter name xs ys, (3, 1)%nat) ]
    /\ List.length xs = List.length ys
    /\ ((List.length (successes df) <= 500)%nat ->
        List.length xs = List.length (successes df))
    /\ ((500 < List.length (successes df))%nat ->
        (500 <= List.length xs <= 999)%nat).
Proof.
  intros Hcol Hn.
  assert (Hne : successes df <> [])
    by (intros E; rewrite E in Hn; simpl in Hn; lia).
  unfold DashboardGenerator.time_series.
  rewrite (nonempty_successes df Hne).
  change (filter success (rows df)) with (successes df).
  rewrite (nonempty_true _ Hne), Hcol.
  replace (1 <? List.length (successes df))%nat with true
    by (symmetry; apply Nat.ltb_lt; lia).
  cbn [andb Py.bind].
  set (n := List.length (successes df)) in *.
  destruct (500 <? n)%nat eqn:Hbig.
  - apply Nat.ltb_lt in Hbig.
    destruct (sample_count n 500 ltac:(lia) Hbig) as (Hstep & Hlo & Hhi).
    rewrite !iloc_step_pos by exact Hstep. cbn [Py.bind].
    eexists _, _. split; [reflexivity|].
    rewrite !length_map, !every_from_length by lia.
    rewrite !length_map. fold n.
    split; [reflexivity|]. split; [lia|]. intros _. lia.
  - apply Nat.ltb_ge in Hbig. cbn [Py.bind].
    eexists _, _. split; [reflexivity|].
    rewrite !length_map. fold n.
    split; [reflexivity|]. split; [reflexivity | lia].
Qed.

(** On Scenario B, three successful records with a [start_time]. *)
Lemma time_series_sampling_scenario_B :
  exists xs ys,
    DashboardGenerator.time_series "Operational SDK" scenario_B (Py.Fin 0)
    = Py.Ok [ (Plot.Scatter "Operational SDK" xs ys, (3, 1)%nat) ]
    /\ List.length xs = List.length ys
    /\ ((List.length (successes scenario_B) <= 500)%nat ->
        List.length xs = List.length (successes scenario_B))
    /\ ((500 < List.length (successes scenario_B))%nat ->
        (500 <= List.length xs <= 999)%nat).
Proof.
  apply (time_series_sampling "Operational SDK" scenario_B (Py.Fin 0)).
  - reflexivity.
  - simpl. lia.
Defined.

(** X12.  In the chart of [create_developer_dashboard], the sampled
    line of a variant with a successful record is always drawn: the
    slice step is never zero.  It holds every successful record up to
    100 of them, and between 100 and 199 points beyond that. *)
Theorem sequence_series_sampling (name : string)
    (succ : list RequestRecord) :
  succ <> [] ->
  exists xs ys,
    DashboardGeneratorHyphen.sequence_series name succ
    = Py.Ok [ (Plot.Scatter name xs ys, (3, 1)%nat) ]
    /\ List.length xs = List.length ys
    /\ ((List.length succ <= 100)%nat -> List.length xs = List.length succ)
    /\ ((100 < List.length succ)%nat -> (100 <= List.length xs <= 199)%nat).
Proof.
  intros Hne. unfold DashboardGeneratorHyphen.sequence_series.
  destruct succ as [|r rs] eqn:Es; [congruence|]. rewrite <- Es.
  assert (Hlen : List.length (combine (seq 0 (List.length succ)) succ)
                 = List.length succ).
  { rewrite length_combine, length_seq. apply Nat.min_id. }
  rewrite Hlen.
  set (n := List.length succ) in *.
  assert (Hpos : (0 < n)%nat) by (subst n succ; simpl; lia).
  destruct (le_lt_dec n 100) as [Hsmall | Hbig].
  - replace (Nat.min 100 n) with n by lia.
    rewrite Nat.div_same by lia.
    rewrite iloc_step_pos by lia. cbn [Py.bind].
    eexists _, _. split; [reflexivity|].
    rewrite !length_map, every_from_length by lia.
    rewrite Hlen. fold n.
    replace ((n + (1 - 1) - 0) / 1)%nat with n
      by (rewrite Nat.div_1_r; lia).
    split; [reflexivity|]. split; [reflexivity | lia].
  - replace (Nat.min 100 n) with 100%nat by lia.
    destruct (sample_count n 100 ltac:(lia) Hbig) as (Hstep & Hlo & Hhi).
    rewrite iloc_step_pos by exact Hstep. cbn [Py.bind].
    eexists _, _. split; [reflexivity|].
    rewrite !length_map, every_from_length by lia.
    rewrite Hlen. fold n.
    split; [reflexivity|]. split; [lia|]. intros _. lia.
Qed.

(** On the successful records of Scenario A. *)
Lemma sequence_series_sampling_scenario_A :
  exists xs ys,
    DashboardGeneratorHyphen.sequence_series "Operational SDK"
      (successes scenario_A)
    = Py.Ok [ (Plot.Scatter "Operational SDK" xs ys, (3, 1)%nat) ]
    /\ List.length xs = List.length ys
    /\ ((List.length (successes scenario_A) <= 100)%nat ->
        List.length xs = List.length (successes scenario_A))
    /\ ((100 < List.length (successes scenario_A))%nat ->
        (100 <= List.length xs <= 199)%nat).
Proof.
  apply (sequence_series_sampling "Operational SDK" (successes scenario_A)).
  discriminate.
Defined.


(* ===================================================================== *)
(** ** The chart of the performance over time *)
(* ===================================================================== *)

Section OverTimeFacts.
Import Py.







End OverTimeFacts.





(* ===================================================================== *)
(** ** The script of [dashboard_generator.py] *)
(* ===================================================================== *)

Section MainFacts.
Import Py.

Lemma dict_get_In {V : Type} (k : string) (v : V) (d : dict V) :
  dict_get k d = Some v -> In (k, v) d.
Proof.
  induction d as [|[k' v'] t IH]; simpl; [discriminate|].
  destruct (String.eqb k k') eqn:Ek.
  - apply String.eqb_eq in Ek. intros [= ->]. subst. now left.
  - intros H. right. now apply IH.
Qed.

Lemma In_dict_get {V : Type} (k : string) (v : V) (d : dict V) :
  NoDup (map fst d) -> In (k, v) d -> dict_get k d = Some v.
Proof.
  induction d as [|[k' v'] t IH]; simpl; [contradiction|].
  intros Hnd [Heq | Hin].
  - injection Heq as -> ->. now rewrite String.eqb_refl.
  - inversion Hnd as [|? ? Hnot Hnd']; subst.
    destruct (String.eqb k k') eqn:Ek.
    + apply String.eqb_eq in Ek. subst. exfalso. apply Hnot.
      apply in_map_iff. now exists (k', v).
    + now apply IH.
Qed.

Lemma resolved_loaded (run_dir : RunDir) (k : string) (info : FileInfo.t) :
  In (k, info) (fst (DashboardGenerator.auto_detect_result_files run_dir)) ->
  DashboardGenerator.load_data run_dir (FileInfo.path info)
  = read_json run_dir (FileInfo.path info).
Proof.
  rewrite auto_detect_amended. intros Hin.
  assert (Hp : DashboardGenerator.exists_nonempty run_dir (FileInfo.path info)
               = true).
  { destruct (resolution_convention run_dir) as [He | (label & files & _ & He)].
    - rewrite He in Hin. contradiction.
    - rewrite He in Hin. now apply present_entries_In in Hin. }
  destruct (exists_nonempty_size _ _ Hp) as (n & Hn & Hpos).
  unfold DashboardGenerator.load_data. rewrite Hn.
  replace (n =? 0)%nat with false; [reflexivity|].
  symmetry. apply Nat.eqb_neq. lia.
Qed.

Lemma resolved_language (run_dir : RunDir) :
  fst (DashboardGenerator.auto_detect_result_files run_dir) <> [] ->
  exists lab,
    snd (DashboardGenerator.auto_detect_result_files run_dir) = Some lab.
Proof.
  rewrite auto_detect_amended. intros Hne.
  destruct (resolution_convention run_dir) as [He | (label & files & _ & He)];
    [contradiction|].
  exists label. now rewrite He.
Qed.

(** A frame with records has a summary, or the calculation raises. *)
Lemma calculate_never_none (config_yaml : Yaml.source) (df : DataFrame)
    (language : option string) :
  empty df = false ->
  DashboardGenerator.calculate_detailed_metrics config_yaml df language
  <> Ok None.
Proof.
  intros He. rewrite calculate_cases, He.
  destruct (DashboardGenerator.load_config config_yaml) as [config|e];
    [|discriminate].
  cbn [bind]. destruct (successes df); [discriminate|].
  destruct (throughput_step df (nominal_duration_s config)) as [td|e];
    discriminate.
Qed.

Lemma variant_metrics_none (config_yaml : Yaml.source) (run_dir : RunDir)
    (data_files : dict FileInfo.t) (language : option string)
    (variant : string) :
  (forall k info, In (k, info) data_files ->
     DashboardGenerator.load_data run_dir (FileInfo.path info)
     = read_json run_dir (FileInfo.path info)) ->
  DashboardGenerator.variant_metrics config_yaml run_dir data_files language
    variant = Ok None
  <-> (forall info, dict_get variant data_files = Some info ->
         rows (read_json run_dir (FileInfo.path info)) = []).
Proof.
  intros Hload. unfold DashboardGenerator.variant_metrics.
  destruct (dict_get variant data_files) as [info|] eqn:Eg;
    [|split; [intros _ ? [=] | reflexivity]].
  rewrite (Hload variant info (dict_get_In _ _ _ Eg)).
  destruct (empty (read_json run_dir (FileInfo.path info))) eqn:Ee;
    cbn [negb].
  - split; [|reflexivity]. intros _ info' [= <-].
    unfold empty in Ee.
    destruct (rows (read_json run_dir (FileInfo.path info)));
      [reflexivity | discriminate].
  - split.
    + intros H. now apply calculate_never_none in H.
    + intros H. specialize (H info eq_refl). unfold empty in Ee.
      rewrite H in Ee. discriminate.
Qed.

End MainFacts.

(** X15.  The script [main] of [dashboard_generator.py] never fails on
    the language label being [None], since a non-empty mapping always
    comes with a label; and it leaves with exit status 1 exactly when no
    run directory is found or every file the resolver maps holds no
    record (in particular when it maps none). *)
Theorem main_exit_status (config_yaml : Yaml.source)
    (run_dir : option RunDir) :
  DashboardGenerator.main config_yaml run_dir
  <> DashboardGenerator.NoneHasNoUpper
  /\ (DashboardGenerator.main config_yaml run_dir
      = DashboardGenerator.Exit 1
      <-> match run_dir with
          | None => True
          | Some dir =>
              forall k info,
                In (k, info)
                   (fst (DashboardGenerator.auto_detect_result_files dir)) ->
                rows (read_json dir (FileInfo.path info)) = []
          end).
Proof.
  destruct run_dir as [dir|]; [|split; [discriminate | now split]].
  unfold DashboardGenerator.main.
  pose proof (resolved_loaded dir) as Hload.
  pose proof (resolved_keys dir) as Hkeys.
  pose proof (resolved_NoDup dir) as Hnd.
  pose proof (resolved_language dir) as Hlang.
  destruct (DashboardGenerator.auto_detect_result_files dir)
    as [files language].
  cbn [fst snd] in *.
  destruct files as [|p l];
    [split; [discriminate | split; [intros _ ? ? [] | reflexivity]]|].
  destruct Hlang as (lab & ->); [discriminate|].
  cbv beta iota.
  set (files := p :: l) in *.
  pose proof (variant_metrics_none config_yaml dir files (Some lab)
                "operational" Hload) as Hop.
  pose proof (variant_metrics_none config_yaml dir files (Some lab)
                "enterprise" Hload) as Hent.
  assert (Hall : (forall k info, In (k, info) files ->
                    rows (read_json dir (FileInfo.path info)) = [])
                 <-> (forall info, dict_get "operational"%string files
                                   = Some info ->
                        rows (read_json dir (FileInfo.path info)) = [])
                     /\ (forall info, dict_get "enterprise"%string files
                                      = Some info ->
                           rows (read_json dir (FileInfo.path info)) = [])).
  { split.
    - intros H. split; intros info Hg;
        apply dict_get_In in Hg; exact (H _ info Hg).
    - intros [Ho He] k info Hin.
      pose proof (In_dict_get k info files Hnd Hin) as Hg.
      destruct (Hkeys k info Hin) as [-> | ->]; [now apply Ho | now apply He]. }
  rewrite Hall, <- Hop, <- Hent.
  destruct (DashboardGenerator.variant_metrics config_yaml dir files
              (Some lab) "operational") as [[mo|]|eo];
    destruct (DashboardGenerator.variant_metrics config_yaml dir files
                (Some lab) "enterprise") as [[me|]|ee];
    try destruct (DashboardGenerator.create_sdk_comparison_dashboard dir
                    files lab _ _);
    (split; [discriminate|]);
    (split; [try discriminate; try (intros _; now split)
            | try reflexivity; intros [? ?]; discriminate]).
Qed.
